(** * brown-rabbit: the Karpenter controller policy, the manifest graph of the
    Karpenter stack and the node-group user-data template.

    The repository is infrastructure as code.  Three pieces of it compute
    something:

    - [karpenter-controller-policy.ts]: the constructor of
      [KarpenterControllerPolicy] assembles the statements of an IAM managed
      policy from three strings;
    - [karpenter-stack.ts]: the constructor of [KarpenterStack] adds
      Kubernetes manifests to the cluster and wires them with
      [node.addDependency];
    - the Terraform node-group configuration renders
      [node-group-userdata.sh] through a [template_file] data source.

    Each is embedded below as the source writes it. *)

From Stdlib Require Import String Ascii List ZArith Lia.
From stdpp Require Import base option list strings gmap relations.

Local Open Scope string_scope.
Local Open Scope list_scope.
Local Open Scope stdpp_scope.

(** ** JavaScript object literals

    An object literal with string keys keeps its keys in insertion order; a
    key written twice keeps its first position and its last value. *)
Module Js.

Definition Obj (V : Type) : Type := list (string * V).

Fixpoint set {V : Type} (k : string) (v : V) (o : Obj V) : Obj V :=
  match o with
  | [] => [(k, v)]
  | (k', v') :: o' =>
      if String.eqb k' k then (k', v) :: o' else (k', v') :: set k v o'
  end.

Definition lit {V : Type} (kvs : list (string * V)) : Obj V :=
  fold_left (fun o kv => set (fst kv) (snd kv) o) kvs [].

Fixpoint get {V : Type} (k : string) (o : Obj V) : option V :=
  match o with
  | [] => None
  | (k', v') :: o' => if String.eqb k' k then Some v' else get k o'
  end.

End Js.

(** ** The pseudo parameters of [aws-cdk-lib]

    [cdk.Aws.PARTITION], [cdk.Aws.REGION] and [cdk.Aws.ACCOUNT_ID] are
    strings the library supplies; the policy splices them into its resource
    patterns.  They are no input of the construct, so they are carried as one
    environment record. *)
Module cdk.

Record Aws : Type := {
  PARTITION : string;
  REGION : string;
  ACCOUNT_ID : string
}.

End cdk.

(** ** The policy assembler ([karpenter-controller-policy.ts]) *)
Module iam.

Inductive Effect : Type := ALLOW | DENY.

(** A condition value is one string or an array of strings. *)
Inductive CondValue : Type :=
| One (v : string)
| Many (vs : list string).

Definition Conditions : Type := Js.Obj (Js.Obj CondValue).

Record PolicyStatement : Type := {
  sid : string;
  effect : Effect;
  resources : list string;
  actions : list string;
  conditions : Conditions
}.

Record ManagedPolicy : Type := {
  managedPolicyName : string;
  description : string;
  statements : list PolicyStatement
}.

End iam.

Record KarpenterControllerPolicyProps : Type := {
  clusterName : string;
  karpenterInterruptionQueueArn : string;
  karpenterNodeRoleArn : string
}.

Section ControllerPolicy.

Variable Aws : cdk.Aws.

Import iam.

Let PARTITION := cdk.PARTITION Aws.
Let REGION := cdk.REGION Aws.
Let ACCOUNT_ID := cdk.ACCOUNT_ID Aws.

(** [`arn:${PARTITION}:ec2:${REGION}` ++ rest] *)
Definition ec2_arn (rest : string) : string :=
  "arn:" +:+ PARTITION +:+ ":ec2:" +:+ REGION +:+ rest.

Definition instance_profile_arn : string :=
  "arn:" +:+ PARTITION +:+ ":iam::" +:+ ACCOUNT_ID +:+ ":instance-profile/*".

(** The constructor of [KarpenterControllerPolicy]: the managed policy it
    stores in [this.managedPolicy]. *)
Definition KarpenterControllerPolicy (props : KarpenterControllerPolicyProps)
  : ManagedPolicy :=
  let clusterName := clusterName props in
  let karpenterInterruptionQueueArn := karpenterInterruptionQueueArn props in
  let karpenterNodeRoleArn := karpenterNodeRoleArn props in
  {| managedPolicyName := "KarpenterControllerPolicy-" +:+ clusterName;
     description := "IAM policy for Karpenter controller in cluster " +:+ clusterName;
     statements := [
       (* Allow scoped EC2 instance access actions *)
       {| sid := "AllowScopedEC2InstanceAccessActions";
          effect := ALLOW;
          resources := [
            ec2_arn "::image/*";
            ec2_arn "::snapshot/*";
            ec2_arn ":*:security-group/*";
            ec2_arn ":*:subnet/*";
            ec2_arn ":*:capacity-reservation/*" ];
          actions := [ "ec2:RunInstances"; "ec2:CreateFleet" ];
          conditions := [] |};
       (* Allow scoped EC2 launch template access actions *)
       {| sid := "AllowScopedEC2LaunchTemplateAccessActions";
          effect := ALLOW;
          resources := [ ec2_arn ":*:launch-template/*" ];
          actions := [ "ec2:RunInstances"; "ec2:CreateFleet" ];
          conditions := Js.lit [
            ("StringEquals", Js.lit [
               ("aws:ResourceTag/kubernetes.io/cluster/" +:+ clusterName, One "owned") ]);
            ("StringLike", Js.lit [
               ("aws:ResourceTag/karpenter.sh/nodepool", One "*") ]) ] |};
       (* Allow scoped EC2 instance actions with tags *)
       {| sid := "AllowScopedEC2InstanceActionsWithTags";
          effect := ALLOW;
          resources := [
            ec2_arn ":*:fleet/*";
            ec2_arn ":*:instance/*";
            ec2_arn ":*:volume/*";
            ec2_arn ":*:network-interface/*";
            ec2_arn ":*:launch-template/*";
            ec2_arn ":*:spot-instances-request/*" ];
          actions := [ "ec2:RunInstances"; "ec2:CreateFleet"; "ec2:CreateLaunchTemplate" ];
          conditions := Js.lit [
            ("StringEquals", Js.lit [
               ("aws:RequestTag/kubernetes.io/cluster/" +:+ clusterName, One "owned");
               ("aws:RequestTag/eks:eks-cluster-name", One clusterName) ]);
            ("StringLike", Js.lit [
               ("aws:RequestTag/karpenter.sh/nodepool", One "*") ]) ] |};
       (* Allow scoped resource creation tagging *)
       {| sid := "AllowScopedResourceCreationTagging";
          effect := ALLOW;
          resources := [
            ec2_arn ":*:fleet/*";
            ec2_arn ":*:instance/*";
            ec2_arn ":*:volume/*";
            ec2_arn ":*:network-interface/*";
            ec2_arn ":*:launch-template/*";
            ec2_arn ":*:spot-instances-request/*" ];
          actions := [ "ec2:CreateTags" ];
          conditions := Js.lit [
            ("StringEquals", Js.lit [
               ("aws:RequestTag/kubernetes.io/cluster/" +:+ clusterName, One "owned");
               ("aws:RequestTag/eks:eks-cluster-name", One clusterName);
               ("ec2:CreateAction",
                Many [ "RunInstances"; "CreateFleet"; "CreateLaunchTemplate" ]) ]);
            ("StringLike", Js.lit [
               ("aws:RequestTag/karpenter.sh/nodepool", One "*") ]) ] |};
       (* Allow scoped resource tagging *)
       {| sid := "AllowScopedResourceTagging";
          effect := ALLOW;
          resources := [ ec2_arn ":*:instance/*" ];
          actions := [ "ec2:CreateTags" ];
          conditions := Js.lit [
            ("StringEquals", Js.lit [
               ("aws:ResourceTag/kubernetes.io/cluster/" +:+ clusterName, One "owned") ]);
            ("StringLike", Js.lit [
               ("aws:ResourceTag/karpenter.sh/nodepool", One "*") ]);
            ("StringEqualsIfExists", Js.lit [
               ("aws:RequestTag/eks:eks-cluster-name", One clusterName) ]);
            ("ForAllValues:StringEquals", Js.lit [
               ("aws:TagKeys",
                Many [ "eks:eks-cluster-name"; "karpenter.sh/nodeclaim"; "Name" ]) ]) ] |};
       (* Allow scoped deletion *)
       {| sid := "AllowScopedDeletion";
          effect := ALLOW;
          resources := [
            ec2_arn ":*:instance/*";
            ec2_arn ":*:launch-template/*" ];
          actions := [ "ec2:TerminateInstances"; "ec2:DeleteLaunchTemplate" ];
          conditions := Js.lit [
            ("StringEquals", Js.lit [
               ("aws:ResourceTag/kubernetes.io/cluster/" +:+ clusterName, One "owned") ]);
            ("StringLike", Js.lit [
               ("aws:ResourceTag/karpenter.sh/nodepool", One "*") ]) ] |};
       (* Allow regional read actions *)
       {| sid := "AllowRegionalReadActions";
          effect := ALLOW;
          resources := [ "*" ];
          actions := [
            "ec2:DescribeCapacityReservations";
            "ec2:DescribeImages";
            "ec2:DescribeInstances";
            "ec2:DescribeInstanceTypeOfferings";
            "ec2:DescribeInstanceTypes";
            "ec2:DescribeLaunchTemplates";
            "ec2:DescribeSecurityGroups";
            "ec2:DescribeSpotPriceHistory";
            "ec2:DescribeSubnets" ];
          conditions := Js.lit [
            ("StringEquals", Js.lit [
               ("aws:RequestedRegion", One REGION) ]) ] |};
       (* Allow SSM read actions *)
       {| sid := "AllowSSMReadActions";
          effect := ALLOW;
          resources := [
            "arn:" +:+ PARTITION +:+ ":ssm:" +:+ REGION +:+ "::parameter/aws/service/*" ];
          actions := [ "ssm:GetParameter" ];
          conditions := [] |};
       (* Allow pricing read actions *)
       {| sid := "AllowPricingReadActions";
          effect := ALLOW;
          resources := [ "*" ];
          actions := [ "pricing:GetProducts" ];
          conditions := [] |};
       (* Allow interruption queue actions *)
       {| sid := "AllowInterruptionQueueActions";
          effect := ALLOW;
          resources := [ karpenterInterruptionQueueArn ];
          actions := [ "sqs:DeleteMessage"; "sqs:GetQueueUrl"; "sqs:ReceiveMessage" ];
          conditions := [] |};
       (* Allow passing instance role *)
       {| sid := "AllowPassingInstanceRole";
          effect := ALLOW;
          resources := [ karpenterNodeRoleArn ];
          actions := [ "iam:PassRole" ];
          conditions := Js.lit [
            ("StringEquals", Js.lit [
               ("iam:PassedToService",
                Many [ "ec2.amazonaws.com"; "ec2.amazonaws.com.cn" ]) ]) ] |};
       (* Allow scoped instance profile creation actions *)
       {| sid := "AllowScopedInstanceProfileCreationActions";
          effect := ALLOW;
          resources := [ instance_profile_arn ];
          actions := [ "iam:CreateInstanceProfile" ];
          conditions := Js.lit [
            ("StringEquals", Js.lit [
               ("aws:RequestTag/kubernetes.io/cluster/" +:+ clusterName, One "owned");
               ("aws:RequestTag/eks:eks-cluster-name", One clusterName);
               ("aws:RequestTag/topology.kubernetes.io/region", One REGION) ]);
            ("StringLike", Js.lit [
               ("aws:RequestTag/karpenter.k8s.aws/ec2nodeclass", One "*") ]) ] |};
       (* Allow scoped instance profile tag actions *)
       {| sid := "AllowScopedInstanceProfileTagActions";
          effect := ALLOW;
          resources := [ instance_profile_arn ];
          actions := [ "iam:TagInstanceProfile" ];
          conditions := Js.lit [
            ("StringEquals", Js.lit [
               ("aws:ResourceTag/kubernetes.io/cluster/" +:+ clusterName, One "owned");
               ("aws:ResourceTag/topology.kubernetes.io/region", One REGION);
               ("aws:RequestTag/kubernetes.io/cluster/" +:+ clusterName, One "owned");
               ("aws:RequestTag/eks:eks-cluster-name", One clusterName);
               ("aws:RequestTag/topology.kubernetes.io/region", One REGION) ]);
            ("StringLike", Js.lit [
               ("aws:ResourceTag/karpenter.k8s.aws/ec2nodeclass", One "*");
               ("aws:RequestTag/karpenter.k8s.aws/ec2nodeclass", One "*") ]) ] |};
       (* Allow scoped instance profile actions *)
       {| sid := "AllowScopedInstanceProfileActions";
          effect := ALLOW;
          resources := [ instance_profile_arn ];
          actions := [
            "iam:AddRoleToInstanceProfile";
            "iam:RemoveRoleFromInstanceProfile";
            "iam:DeleteInstanceProfile" ];
          conditions := Js.lit [
            ("StringEquals", Js.lit [
               ("aws:ResourceTag/kubernetes.io/cluster/" +:+ clusterName, One "owned");
               ("aws:ResourceTag/topology.kubernetes.io/region", One REGION) ]);
            ("StringLike", Js.lit [
               ("aws:ResourceTag/karpenter.k8s.aws/ec2nodeclass", One "*") ]) ] |};
       (* Allow instance profile read actions *)
       {| sid := "AllowInstanceProfileReadActions";
          effect := ALLOW;
          resources := [ instance_profile_arn ];
          actions := [ "iam:GetInstanceProfile" ];
          conditions := [] |};
       (* Allow API server endpoint discovery *)
       {| sid := "AllowAPIServerEndpointDiscovery";
          effect := ALLOW;
          resources := [
            "arn:" +:+ PARTITION +:+ ":eks:" +:+ REGION +:+ ":" +:+ ACCOUNT_ID
              +:+ ":cluster/" +:+ clusterName ];
          actions := [ "eks:DescribeCluster" ];
          conditions := [] |}
     ] |}.

(** The policy assembler of the specification: the statements of the managed
    policy, in the order the constructor lists them. *)
Definition buildControllerPolicy
  (clusterId interruptionQueueArn nodeRoleArn : string) : list PolicyStatement :=
  statements (KarpenterControllerPolicy
    {| clusterName := clusterId;
       karpenterInterruptionQueueArn := interruptionQueueArn;
       karpenterNodeRoleArn := nodeRoleArn |}).

End ControllerPolicy.

(** Queries on a statement sequence. *)
Definition find_sid (s : string) (stmts : list iam.PolicyStatement)
  : option iam.PolicyStatement :=
  List.find (fun st => String.eqb (iam.sid st) s) stmts.

Definition condition (op key : string) (st : iam.PolicyStatement)
  : option iam.CondValue :=
  match Js.get op (iam.conditions st) with
  | Some m => Js.get key m
  | None => None
  end.


(** What a statement looks like with its strings left out: its sid, effect
    and actions, the number of its resource patterns, and its condition
    operators with the number of keys under each. *)
Definition shape (st : iam.PolicyStatement)
  : string * iam.Effect * list string * nat * list (string * nat) :=
  (iam.sid st, iam.effect st, iam.actions st, List.length (iam.resources st),
   map (fun om => (fst om, List.length (snd om))) (iam.conditions st)).

(** A tag key is repeated in a statement when the [aws:ResourceTag] and the
    [aws:RequestTag] form of it stand under the operator [op] with the same
    required value [v]. *)
Definition tag_repeated (op tag : string) (v : iam.CondValue)
  (st : iam.PolicyStatement) : Prop :=
  condition op ("aws:ResourceTag/" +:+ tag) st = Some v /\
  condition op ("aws:RequestTag/" +:+ tag) st = Some v.

(** ** Text helpers *)
Definition dq : string := String (ascii_of_nat 34) EmptyString.
Definition nl : string := String (ascii_of_nat 10) EmptyString.

(** [lines.join('\n')] *)
Definition join_lines (lines : list string) : string := String.concat nl lines.

(** A multi-line literal in which every line, the last one too, ends with a
    newline. *)
Definition text_of_lines (lines : list string) : string :=
  String.concat EmptyString (map (fun l => l +:+ nl) lines).

(** ** Manifest documents *)
#[local] Set Warnings "-register-all".
Inductive Json : Type :=
| JStr (s : string)
| JNum (n : Z)
| JBool (b : bool)
| JArr (items : list Json)
| JObj (fields : Js.Obj Json).

Definition obj (kvs : list (string * Json)) : Json := JObj (Js.lit kvs).

Definition field (k : string) (j : Json) : option Json :=
  match j with
  | JObj fields => Js.get k fields
  | _ => None
  end.

Definition str_field (k : string) (j : Json) : option string :=
  match field k j with
  | Some (JStr s) => Some s
  | _ => None
  end.

(** [cdk.Fn.base64(s)] is the CloudFormation intrinsic [Fn::Base64]. *)
Definition Fn_base64 (s : string) : Json := obj [ ("Fn::Base64", JStr s) ].

(** ** The construct tree of the cluster's manifests

    [cluster.addManifest(id, manifest)] creates a construct under the cluster
    and returns it; [a.node.addDependency(b)] adds [b] to the dependency set of
    [a].  The constructs are kept in an arena in creation order and a manifest
    is referred to by its index there.  A construct id may be used once per
    scope. *)
Module constructs.

Record ManifestNode : Type := {
  id : string;
  manifest : Json;
  dependsOn : list nat
}.

Inductive Error : Type :=
| DuplicateConstruct (id : string)
| NoSuchNode (h : nat).

Inductive Res (A : Type) : Type :=
| Ok (a : A)
| Fail (e : Error).
Arguments Ok {A} a.
Arguments Fail {A} e.

Definition Cluster : Type := list ManifestNode.

Definition M (A : Type) : Type := Cluster -> Res (A * Cluster).

#[export] Instance M_ret : MRet M := fun A a s => Ok (a, s).

#[export] Instance M_bind : MBind M := fun A B f c s =>
  match c s with
  | Ok (a, s') => f a s'
  | Fail e => Fail e
  end.

Definition has_id (i : string) (s : Cluster) : bool :=
  existsb (fun n => String.eqb (id n) i) s.

Definition addManifest (i : string) (m : Json) : M nat := fun s =>
  if has_id i s then Fail (DuplicateConstruct i)
  else Ok (List.length s, s ++ [ {| id := i; manifest := m; dependsOn := [] |} ]).

(** A dependency set keeps insertion order and holds a dependency once. *)
Definition add_dep (d : nat) (deps : list nat) : list nat :=
  if existsb (Nat.eqb d) deps then deps else deps ++ [d].

Definition addDependency (h d : nat) : M unit := fun s =>
  match s !! h, s !! d with
  | Some n, Some _ =>
      Ok (tt, <[ h := {| id := id n; manifest := manifest n;
                         dependsOn := add_dep d (dependsOn n) |} ]> s)
  | None, _ => Fail (NoSuchNode h)
  | _, None => Fail (NoSuchNode d)
  end.

End constructs.

Module eks.

Record Cluster : Type := {
  clusterName : string;
  clusterEndpoint : string
}.

End eks.

(** What the stack reads from its surroundings: the cluster of its props, the
    region of the stack, and the ARN the platform gives the controller role. *)
Record Config : Type := {
  cluster : eks.Cluster;
  region : string;
  karpenterControllerRoleArn : string
}.

(** The [install.sh] entry of the config map. *)
Definition install_sh_lines : list string := [
  "#!/bin/bash";
  "set -e";
  EmptyString;
  "echo " +:+ dq +:+ "Installing Karpenter 1.6.1..." +:+ dq;
  EmptyString;
  "# Install required tools";
  "yum update -y";
  "yum install -y curl tar gzip";
  EmptyString;
  "# Install kubectl";
  "curl -LO " +:+ dq +:+ "https://dl.k8s.io/release/v1.28.0/bin/linux/amd64/kubectl" +:+ dq;
  "chmod +x kubectl";
  "mv kubectl /usr/local/bin/";
  EmptyString;
  "# Install Helm";
  "curl -fsSL -o get_helm.sh https://raw.githubusercontent.com/helm/helm/main/scripts/get-helm-3";
  "chmod 700 get_helm.sh";
  "./get_helm.sh";
  EmptyString;
  "# Configure kubectl to use the cluster";
  "aws eks update-kubeconfig --region $AWS_DEFAULT_REGION --name $CLUSTER_NAME";
  EmptyString;
  "# Authenticate with ECR Public for OCI registry access";
  "aws ecr-public get-login-password --region us-east-1 | helm registry login --username AWS --password-stdin public.ecr.aws";
  EmptyString;
  "# Install Karpenter using Helm with OCI registry";
  "helm upgrade --install karpenter oci://public.ecr.aws/karpenter/karpenter \";
  "  --version 1.6.1 \";
  "  --namespace karpenter \";
  "  --create-namespace \";
  "  --set serviceAccount.create=false \";
  "  --set serviceAccount.name=karpenter \";
  "  --set settings.clusterName=$CLUSTER_NAME \";
  "  --set settings.clusterEndpoint=$CLUSTER_ENDPOINT \";
  "  --set settings.interruptionQueue=$INTERRUPTION_QUEUE \";
  "  --set settings.featureGates.drift=true \";
  "  --set settings.featureGates.spotToSpotConsolidation=true \";
  "  --set controller.resources.requests.cpu=1 \";
  "  --set controller.resources.requests.memory=1Gi \";
  "  --set controller.resources.limits.cpu=1 \";
  "  --set controller.resources.limits.memory=1Gi \";
  "  --set webhook.enabled=true \";
  "  --set webhook.port=8443 \";
  "  --set logLevel=info \";
  "  --set batchMaxDuration=10s \";
  "  --set batchIdleDuration=1s \";
  "  --wait";
  EmptyString;
  "echo " +:+ dq +:+ "Karpenter installation completed successfully!" +:+ dq;
  EmptyString;
  "# Verify installation";
  "kubectl get pods -n karpenter";
  "kubectl get deployment -n karpenter"
].

(** ** The manifest graph builder ([karpenter-stack.ts]) *)
Section KarpenterStack.

Import constructs.

Variable cfg : Config.

Let clusterName := eks.clusterName (cluster cfg).
Let clusterEndpoint := eks.clusterEndpoint (cluster cfg).

(** [this.karpenterNodeRole.roleName] and [karpenterQueue.queueName], as the
    constructor names the role and the queue. *)
Definition karpenterNodeRole_roleName : string :=
  "KarpenterNodeInstanceRole-" +:+ clusterName.

Definition karpenterQueue_queueName : string :=
  "Karpenter-" +:+ clusterName.

Definition KarpenterNamespace_manifest : Json :=
  obj [
    ("apiVersion", JStr "v1");
    ("kind", JStr "Namespace");
    ("metadata", obj [
       ("name", JStr "karpenter");
       ("labels", obj [ ("app.kubernetes.io/name", JStr "karpenter") ]) ]) ].

Definition KarpenterServiceAccount_manifest : Json :=
  obj [
    ("apiVersion", JStr "v1");
    ("kind", JStr "ServiceAccount");
    ("metadata", obj [
       ("name", JStr "karpenter");
       ("namespace", JStr "karpenter");
       ("annotations", obj [
          ("eks.amazonaws.com/role-arn", JStr (karpenterControllerRoleArn cfg)) ]) ]) ].

Definition KarpenterController_manifest : Json :=
  obj [
    ("apiVersion", JStr "v1");
    ("kind", JStr "ConfigMap");
    ("metadata", obj [
       ("name", JStr "karpenter-install-script");
       ("namespace", JStr "karpenter") ]);
    ("data", obj [ ("install.sh", JStr (text_of_lines install_sh_lines)) ]) ].

Definition KarpenterInstallerRole_manifest : Json :=
  obj [
    ("apiVersion", JStr "rbac.authorization.k8s.io/v1");
    ("kind", JStr "ClusterRole");
    ("metadata", obj [ ("name", JStr "karpenter-installer") ]);
    ("rules", JArr [
       obj [
         ("apiGroups", JArr [ JStr "*" ]);
         ("resources", JArr [ JStr "*" ]);
         ("verbs", JArr [ JStr "*" ]) ] ]) ].

Definition KarpenterInstallerRoleBinding_manifest : Json :=
  obj [
    ("apiVersion", JStr "rbac.authorization.k8s.io/v1");
    ("kind", JStr "ClusterRoleBinding");
    ("metadata", obj [ ("name", JStr "karpenter-installer") ]);
    ("roleRef", obj [
       ("apiGroup", JStr "rbac.authorization.k8s.io");
       ("kind", JStr "ClusterRole");
       ("name", JStr "karpenter-installer") ]);
    ("subjects", JArr [
       obj [
         ("kind", JStr "ServiceAccount");
         ("name", JStr "karpenter");
         ("namespace", JStr "karpenter") ] ]) ].

Definition KarpenterInstallJob_manifest : Json :=
  obj [
    ("apiVersion", JStr "batch/v1");
    ("kind", JStr "Job");
    ("metadata", obj [
       ("name", JStr "karpenter-installer");
       ("namespace", JStr "karpenter") ]);
    ("spec", obj [
       ("template", obj [
          ("spec", obj [
             ("serviceAccountName", JStr "karpenter");
             ("restartPolicy", JStr "OnFailure");
             ("containers", JArr [
                obj [
                  ("name", JStr "installer");
                  ("image", JStr "amazon/aws-cli:latest");
                  ("command", JArr [ JStr "/bin/bash" ]);
                  ("args", JArr [ JStr "/scripts/install.sh" ]);
                  ("volumeMounts", JArr [
                     obj [
                       ("name", JStr "install-script");
                       ("mountPath", JStr "/scripts") ] ]);
                  ("env", JArr [
                     obj [ ("name", JStr "AWS_DEFAULT_REGION");
                           ("value", JStr (region cfg)) ];
                     obj [ ("name", JStr "CLUSTER_NAME");
                           ("value", JStr clusterName) ];
                     obj [ ("name", JStr "CLUSTER_ENDPOINT");
                           ("value", JStr clusterEndpoint) ];
                     obj [ ("name", JStr "INTERRUPTION_QUEUE");
                           ("value", JStr karpenterQueue_queueName) ] ]) ] ]);
             ("volumes", JArr [
                obj [
                  ("name", JStr "install-script");
                  ("configMap", obj [
                     ("name", JStr "karpenter-install-script");
                     (* 0o755 *)
                     ("defaultMode", JNum 493) ]) ] ]) ]) ]);
       ("backoffLimit", JNum 3) ]) ].

Definition requirement (key : string) (values : list string) : Json :=
  obj [
    ("key", JStr key);
    ("operator", JStr "In");
    ("values", JArr (map JStr values)) ].

Definition DefaultNodePool_manifest : Json :=
  obj [
    ("apiVersion", JStr "karpenter.sh/v1beta1");
    ("kind", JStr "NodePool");
    ("metadata", obj [
       ("name", JStr "default");
       ("namespace", JStr "karpenter") ]);
    ("spec", obj [
       ("template", obj [
          ("metadata", obj [
             ("labels", obj [ ("node-type", JStr "karpenter") ]);
             ("annotations", obj [
                ("cluster-autoscaler.kubernetes.io/safe-to-evict", JStr "true") ]) ]);
          ("spec", obj [
             ("requirements", JArr [
                requirement "kubernetes.io/arch" [ "amd64" ];
                requirement "kubernetes.io/os" [ "linux" ];
                requirement "karpenter.sh/capacity-type" [ "spot"; "on-demand" ];
                requirement "node.kubernetes.io/instance-type"
                  [ "m5.large"; "m5.xlarge"; "m5.2xlarge"; "m5.4xlarge";
                    "c5.large"; "c5.xlarge"; "c5.2xlarge"; "c5.4xlarge" ] ]);
             ("nodeClassRef", obj [
                ("apiVersion", JStr "karpenter.k8s.aws/v1beta1");
                ("kind", JStr "EC2NodeClass");
                ("name", JStr "default") ]);
             ("taints", JArr [
                obj [
                  ("key", JStr "karpenter.sh/unschedulable");
                  ("value", JStr "true");
                  ("effect", JStr "NoSchedule") ] ]) ]) ]);
       ("disruption", obj [
          ("consolidationPolicy", JStr "WhenUnderutilized");
          ("consolidateAfter", JStr "30s");
          ("expireAfter", JStr "30m") ]);
       ("limits", obj [
          ("cpu", JStr "1000");
          ("memory", JStr "1000Gi") ]) ]) ].

(** The [tags] object of the node class writes its second key as the
    expression ['kubernetes.io/cluster/' + cluster.clusterName]; it is read
    as the computed key it stands for. *)
Definition DefaultNodeClass_manifest : Json :=
  obj [
    ("apiVersion", JStr "karpenter.k8s.aws/v1beta1");
    ("kind", JStr "EC2NodeClass");
    ("metadata", obj [
       ("name", JStr "default");
       ("namespace", JStr "karpenter") ]);
    ("spec", obj [
       ("amiFamily", JStr "AL2");
       ("subnetSelectorTerms", JArr [
          obj [ ("tags", obj [ ("karpenter.sh/discovery", JStr clusterName) ]) ] ]);
       ("securityGroupSelectorTerms", JArr [
          obj [ ("tags", obj [ ("karpenter.sh/discovery", JStr clusterName) ]) ] ]);
       ("instanceStorePolicy", JStr "RAID0");
       ("userData", Fn_base64 (join_lines [
          "#!/bin/bash";
          "/etc/eks/bootstrap.sh " +:+ clusterName;
          "echo " +:+ dq +:+ "net.ipv4.conf.all.route_localnet = 1" +:+ dq
            +:+ " >> /etc/sysctl.conf";
          "sysctl -p /etc/sysctl.conf" ]));
       ("blockDeviceMappings", JArr [
          obj [
            ("deviceName", JStr "/dev/xvda");
            ("ebs", obj [
               ("volumeSize", JStr "100Gi");
               ("volumeType", JStr "gp3");
               ("iops", JNum 3000);
               ("throughput", JNum 125);
               ("deleteOnTermination", JBool true);
               ("encrypted", JBool true) ]) ] ]);
       ("role", JStr karpenterNodeRole_roleName);
       ("tags", obj [
          ("karpenter.sh/discovery", JStr clusterName);
          ("kubernetes.io/cluster/" +:+ clusterName, JStr "owned") ]) ]) ].

(** The manifest part of the constructor of [KarpenterStack], statement by
    statement. *)
Definition KarpenterStack : M unit :=
  karpenterNamespace ← addManifest "KarpenterNamespace" KarpenterNamespace_manifest;
  karpenterServiceAccount ←
    addManifest "KarpenterServiceAccount" KarpenterServiceAccount_manifest;
  karpenterManifests ← addManifest "KarpenterController" KarpenterController_manifest;
  installerRole ← addManifest "KarpenterInstallerRole" KarpenterInstallerRole_manifest;
  installerRoleBinding ←
    addManifest "KarpenterInstallerRoleBinding" KarpenterInstallerRoleBinding_manifest;
  karpenterInstallJob ← addManifest "KarpenterInstallJob" KarpenterInstallJob_manifest;
  (* Add dependencies *)
  addDependency karpenterServiceAccount karpenterNamespace;;
  addDependency karpenterManifests karpenterServiceAccount;;
  addDependency karpenterInstallJob karpenterManifests;;
  defaultNodePool ← addManifest "DefaultNodePool" DefaultNodePool_manifest;
  defaultNodeClass ← addManifest "DefaultNodeClass" DefaultNodeClass_manifest;
  (* Add dependencies *)
  addDependency defaultNodePool karpenterInstallJob;;
  addDependency defaultNodeClass karpenterInstallJob.

(** The graph builder of the specification: the manifests the constructor
    adds to a cluster that holds none, with their dependency sets. *)
Definition buildDeploymentGraph : Res Cluster :=
  match KarpenterStack [] with
  | Ok (_, g) => Ok g
  | Fail e => Fail e
  end.

End KarpenterStack.

Definition demoConfig : Config :=
  {| cluster := {| eks.clusterName := "demo";
                   eks.clusterEndpoint := "https://demo.eks.example" |};
     region := "us-west-2";
     karpenterControllerRoleArn := "arn:aws:iam::123:role/KarpenterControllerRole-demo" |}.

(** Queries on a manifest graph. *)
Definition kind (n : constructs.ManifestNode) : option string :=
  str_field "kind" (constructs.manifest n).

Fixpoint index_where {A : Type} (p : A -> bool) (l : list A) : option nat :=
  match l with
  | [] => None
  | x :: l' => if p x then Some 0 else S <$> index_where p l'
  end.

(** The first node of a kind, by its index in the arena. *)
Definition node_of_kind (k : string) (g : constructs.Cluster) : option nat :=
  index_where (fun n => bool_decide (kind n = Some k)) g.

(** [edge g i j]: node [i] of [g] lists node [j] in its dependency set. *)
Definition edge (g : constructs.Cluster) (i j : nat) : Prop :=
  exists n, g !! i = Some n /\ In j (constructs.dependsOn n).

Definition acyclic (g : constructs.Cluster) : Prop :=
  forall i, ~ tc (edge g) i i.

(** Every dependency of a node was created before the node. *)
Fixpoint deps_point_back_from (i : nat) (g : constructs.Cluster) : bool :=
  match g with
  | [] => true
  | n :: g' =>
      forallb (fun d => Nat.ltb d i) (constructs.dependsOn n)
      && deps_point_back_from (S i) g'
  end.

Definition deps_point_back (g : constructs.Cluster) : bool :=
  deps_point_back_from 0 g.

(** The dependency edges, node by node, each as the pair of the labels of
    its two ends. *)
Definition edges_by {L : Type} (label : constructs.ManifestNode -> L)
  (g : constructs.Cluster) : list (L * L) :=
  flat_map (fun n =>
    omap (fun d => (fun m => (label n, label m)) <$> g !! d)
         (constructs.dependsOn n)) g.

(** In [g], the first node of kind [from] has the first node of kind [to]
    in its dependency set, and nothing else. *)
Definition depends_only_on (from to : string) (g : constructs.Cluster) : Prop :=
  exists i j n,
    node_of_kind from g = Some i /\
    node_of_kind to g = Some j /\
    g !! i = Some n /\
    forall d, In d (constructs.dependsOn n) <-> d = j.

(** ** The script emitter

    The node-group configuration declares
    [data "template_file" "user_data"] with the template
    [node-group-userdata.sh] and [vars = { CLUSTER_NAME = var.cluster_name }]. *)

(** [node-group-userdata.sh] *)
Definition node_group_userdata_lines : list string := [
  "#!/bin/bash";
  EmptyString;
  "# EKS Node Group User Data Script for Podman/Rootless Container Support";
  "# This script configures EKS nodes to support rootless container builds";
  EmptyString;
  "set -e";
  EmptyString;
  "# Enable user namespaces (required for rootless containers)";
  "echo " +:+ dq +:+ "Enabling user namespaces..." +:+ dq;
  "echo 'user.max_user_namespaces = 65536' >> /etc/sysctl.conf";
  "echo 'user.max_pid_namespaces = 65536' >> /etc/sysctl.conf";
  "echo 'user.max_net_namespaces = 65536' >> /etc/sysctl.conf";
  "sysctl -p";
  EmptyString;
  "# Install fuse-overlayfs (required for rootless overlay storage)";
  "echo " +:+ dq +:+ "Installing fuse-overlayfs..." +:+ dq;
  "yum update -y";
  "yum install -y fuse-overlayfs";
  EmptyString;
  "# Install crun (modern container runtime with better rootless support)";
  "echo " +:+ dq +:+ "Installing crun..." +:+ dq;
  "CRUN_VERSION=" +:+ dq +:+ "1.8.7" +:+ dq;
  "curl -L " +:+ dq +:+ "https://github.com/containers/crun/releases/download/${CRUN_VERSION}/crun-${CRUN_VERSION}-linux-amd64" +:+ dq +:+ " \";
  "    -o /usr/local/bin/crun";
  "chmod +x /usr/local/bin/crun";
  EmptyString;
  "# Configure containerd to use crun";
  "echo " +:+ dq +:+ "Configuring containerd for crun..." +:+ dq;
  "mkdir -p /etc/containerd/";
  "cat > /etc/containerd/config.toml << 'EOF'";
  "version = 2";
  EmptyString;
  "[plugins]";
  "  [plugins." +:+ dq +:+ "io.containerd.grpc.v1.cri" +:+ dq +:+ "]";
  "    [plugins." +:+ dq +:+ "io.containerd.grpc.v1.cri" +:+ dq +:+ ".containerd]";
  "      [plugins." +:+ dq +:+ "io.containerd.grpc.v1.cri" +:+ dq +:+ ".containerd.runtimes]";
  "        [plugins." +:+ dq +:+ "io.containerd.grpc.v1.cri" +:+ dq +:+ ".containerd.runtimes.runc]";
  "          runtime_type = " +:+ dq +:+ "io.containerd.runc.v2" +:+ dq;
  "          [plugins." +:+ dq +:+ "io.containerd.grpc.v1.cri" +:+ dq +:+ ".containerd.runtimes.runc.options]";
  "            BinaryName = " +:+ dq +:+ "/usr/local/bin/crun" +:+ dq;
  "        [plugins." +:+ dq +:+ "io.containerd.grpc.v1.cri" +:+ dq +:+ ".containerd.runtimes.crun]";
  "          runtime_type = " +:+ dq +:+ "io.containerd.runc.v2" +:+ dq;
  "          [plugins." +:+ dq +:+ "io.containerd.grpc.v1.cri" +:+ dq +:+ ".containerd.runtimes.crun.options]";
  "            BinaryName = " +:+ dq +:+ "/usr/local/bin/crun" +:+ dq;
  "EOF";
  EmptyString;
  "# Set up subuid/subgid ranges for rootless containers";
  "echo " +:+ dq +:+ "Setting up subuid/subgid ranges..." +:+ dq;
  "echo 'ec2-user:100000:65536' >> /etc/subuid";
  "echo 'ec2-user:100000:65536' >> /etc/subgid";
  EmptyString;
  "# Create systemd user directory for rootless services";
  "echo " +:+ dq +:+ "Setting up systemd user directories..." +:+ dq;
  "mkdir -p /etc/systemd/user";
  "mkdir -p /var/lib/systemd/linger";
  EmptyString;
  "# Enable lingering for ec2-user (allows user services to run without login)";
  "loginctl enable-linger ec2-user || true";
  EmptyString;
  "# Install additional tools for container builds";
  "echo " +:+ dq +:+ "Installing build tools..." +:+ dq;
  "yum install -y \";
  "    git \";
  "    tar \";
  "    gzip \";
  "    which \";
  "    curl \";
  "    wget";
  EmptyString;
  "# Configure kernel parameters for better container performance";
  "echo " +:+ dq +:+ "Configuring kernel parameters..." +:+ dq;
  "cat >> /etc/sysctl.conf << 'EOF'";
  "# Container optimizations";
  "fs.inotify.max_user_watches = 524288";
  "fs.inotify.max_user_instances = 512";
  "kernel.keys.maxkeys = 2000";
  "kernel.keys.maxbytes = 2000000";
  "EOF";
  "sysctl -p";
  EmptyString;
  "# Set up storage optimization";
  "echo " +:+ dq +:+ "Optimizing storage for container builds..." +:+ dq;
  "# Create dedicated partition for container storage if additional EBS volume is attached";
  "if [ -b /dev/nvme1n1 ]; then";
  "    mkfs.ext4 /dev/nvme1n1";
  "    mkdir -p /var/lib/containers";
  "    mount /dev/nvme1n1 /var/lib/containers";
  "    echo '/dev/nvme1n1 /var/lib/containers ext4 defaults,noatime 0 2' >> /etc/fstab";
  "    chmod 755 /var/lib/containers";
  "fi";
  EmptyString;
  "# Restart containerd to pick up new configuration";
  "systemctl restart containerd";
  EmptyString;
  "# Label the node for podman workloads";
  "echo " +:+ dq +:+ "Node setup complete for rootless container builds" +:+ dq;
  EmptyString;
  "# Bootstrap EKS node (this must be last)";
  "/etc/eks/bootstrap.sh ${CLUSTER_NAME} \";
  "    --container-runtime containerd \";
  "    --kubelet-extra-args '--node-labels=node-type=builder,podman-enabled=true'"
].

Inductive TemplateId : Type := NodeGroupUserdata.

Definition template_text (t : TemplateId) : string :=
  match t with
  | NodeGroupUserdata => join_lines node_group_userdata_lines
  end.

(** [vars] of [template_file.user_data]. *)
Definition user_data_vars (cluster_name : string) : gmap string string :=
  {[ "CLUSTER_NAME" := cluster_name ]}.

Inductive Piece : Type :=
| Text (c : ascii)
| Placeholder (name : string).

(** The scanner reads the template once, left to right. *)
Inductive ScanState : Type :=
| Plain
| Dollar
| InRef (name : string).

Definition text_pieces (s : string) : list Piece :=
  map Text (list_ascii_of_string s).

Fixpoint scan (st : ScanState) (s : string) : list Piece :=
  match s with
  | EmptyString =>
      match st with
      | Plain => []
      | Dollar => [ Text "$" ]
      | InRef name => text_pieces ("${" +:+ name)
      end
  | String c rest =>
      match st with
      | Plain =>
          if Ascii.eqb c "$" then scan Dollar rest
          else Text c :: scan Plain rest
      | Dollar =>
          if Ascii.eqb c "{" then scan (InRef EmptyString) rest
          else if Ascii.eqb c "$" then Text "$" :: scan Dollar rest
          else Text "$" :: Text c :: scan Plain rest
      | InRef name =>
          if Ascii.eqb c "}" then Placeholder name :: scan Plain rest
          else scan (InRef (name +:+ String c EmptyString)) rest
      end
  end.

Definition pieces (template : string) : list Piece := scan Plain template.

(** The placeholders a template refers to, in order of appearance. *)
Definition placeholders (template : string) : list string :=
  omap (fun p => match p with Placeholder n => Some n | Text _ => None end)
       (pieces template).

Inductive RenderError : Type := MissingVariable (name : string).

Inductive RenderResult : Type :=
| Rendered (text : string)
| Failed (e : RenderError).

Fixpoint substitute (vars : gmap string string) (ps : list Piece) : RenderResult :=
  match ps with
  | [] => Rendered EmptyString
  | Text c :: ps' =>
      match substitute vars ps' with
      | Rendered s => Rendered (String c s)
      | Failed e => Failed e
      end
  | Placeholder n :: ps' =>
      match vars !! n with
      | None => Failed (MissingVariable n)
      | Some v =>
          match substitute vars ps' with
          | Rendered s => Rendered (v +:+ s)
          | Failed e => Failed e
          end
      end
  end.

Definition render (template : string) (vars : gmap string string) : RenderResult :=
  substitute vars (pieces template).

(** Modelled from the spec: the rendering function itself is Terraform's
    [template_file] data source and is not part of the repository.  The
    specification gives [renderTemplate(templateId, variables)] as pure
    string substitution that fails with [MissingVariable] when a placeholder
    the template refers to has no supplied value; a placeholder is written
    [${NAME}], as the template writes [${CLUSTER_NAME}]. *)
Definition renderTemplate (t : TemplateId) (vars : gmap string string)
  : RenderResult :=
  render (template_text t) vars.

(** [contains needle s]: [needle] occurs in [s]. *)
Fixpoint contains (needle s : string) : bool :=
  String.prefix needle s ||
  match s with
  | EmptyString => false
  | String _ s' => contains needle s'
  end.

(** ** Reading manifests *)

(** The value under a path of keys. *)
Fixpoint path (ks : list string) (j : Json) : option Json :=
  match ks with
  | [] => Some j
  | k :: ks' =>
      match field k j with
      | Some j' => path ks' j'
      | None => None
      end
  end.

Definition str_at (ks : list string) (j : Json) : option string :=
  match path ks j with
  | Some (JStr s) => Some s
  | _ => None
  end.

(** The elements of the array under a path; none when there is no array. *)
Definition items_at (ks : list string) (j : Json) : list Json :=
  match path ks j with
  | Some (JArr items) => items
  | _ => []
  end.

Definition name_of (n : constructs.ManifestNode) : option string :=
  str_at [ "metadata"; "name" ] (constructs.manifest n).

Definition namespace_of (n : constructs.ManifestNode) : option string :=
  str_at [ "metadata"; "namespace" ] (constructs.manifest n).

(** What the platform tells two objects apart by: kind, namespace, name. *)
Definition identity (n : constructs.ManifestNode)
  : option string * option string * option string :=
  (kind n, namespace_of n, name_of n).

(** The first node with a given kind, namespace and name. *)
Definition find_node (k : string) (ns : option string) (nm : string)
  (g : constructs.Cluster) : option nat :=
  index_where (fun n => bool_decide (identity n = (Some k, ns, Some nm))) g.

(** The nodes reached from node [i] along dependsOn edges, read off the
    dependency sets; [fuel] bounds the length of the paths followed. *)
Fixpoint descendants_fuel (g : constructs.Cluster) (fuel i : nat) : list nat :=
  match fuel with
  | 0 => []
  | S fuel' =>
      match g !! i with
      | None => []
      | Some n =>
          flat_map (fun d => d :: descendants_fuel g fuel' d)
                   (constructs.dependsOn n)
      end
  end.

Definition descendants (g : constructs.Cluster) (i : nat) : list nat :=
  descendants_fuel g (S i) i.

(** What the pod of a Job manifest refers to by name. *)
Definition pod_spec : list string := [ "spec"; "template"; "spec" ].

Definition job_serviceAccountName (j : Json) : option string :=
  str_at (pod_spec ++ [ "serviceAccountName" ]) j.

Definition job_configMaps (j : Json) : list string :=
  omap (str_at [ "configMap"; "name" ]) (items_at (pod_spec ++ [ "volumes" ]) j).

Definition job_containers (j : Json) : list Json :=
  items_at (pod_spec ++ [ "containers" ]) j.

Definition env_names (container : Json) : list string :=
  omap (str_at [ "name" ]) (items_at [ "env" ] container).

(** The variables a shell script reads in the form [$NAME]. *)
Definition is_name_char (c : ascii) : bool :=
  let n := nat_of_ascii c in
  (Nat.leb 65 n && Nat.leb n 90) || (Nat.leb 97 n && Nat.leb n 122)
  || (Nat.leb 48 n && Nat.leb n 57) || Nat.eqb n 95.

Definition emit_name (name : string) : list string :=
  match name with
  | EmptyString => []
  | _ => [ name ]
  end.

Fixpoint shell_vars_from (cur : option string) (s : string) : list string :=
  match s with
  | EmptyString =>
      match cur with
      | Some name => emit_name name
      | None => []
      end
  | String c rest =>
      match cur with
      | Some name =>
          if is_name_char c
          then shell_vars_from (Some (name +:+ String c EmptyString)) rest
          else emit_name name ++
               shell_vars_from (if Ascii.eqb c "$" then Some EmptyString else None) rest
      | None =>
          shell_vars_from (if Ascii.eqb c "$" then Some EmptyString else None) rest
      end
  end.

Definition shell_vars (script : string) : list string :=
  shell_vars_from None script.

(** Whether some node lists [j] in its dependency set. *)
Definition has_dependent (g : constructs.Cluster) (j : nat) : bool :=
  existsb (fun n => existsb (Nat.eqb j) (constructs.dependsOn n)) g.

(** ** Reading a policy *)

(** The statements whose sid is none of [sids]. *)
Definition without_sids (sids : list string) (stmts : list iam.PolicyStatement)
  : list iam.PolicyStatement :=
  List.filter (fun st => negb (existsb (String.eqb (iam.sid st)) sids)) stmts.

(** The actions that only read: the EC2 describe calls and the price list. *)
Definition read_only_action (a : string) : bool :=
  String.prefix "ec2:Describe" a || String.eqb a "pricing:GetProducts".

Definition demoAws : cdk.Aws :=
  {| cdk.PARTITION := "aws"; cdk.REGION := "us-west-2"; cdk.ACCOUNT_ID := "123" |}.

(** ** The roles, the instance profile, the queue and the event rules of the
    stack ([karpenter-stack.ts], before the manifests) *)
Module eks_oidc.

Record OpenIdConnectProvider : Type := {
  openIdConnectProviderArn : string;
  openIdConnectProviderIssuer : string
}.

End eks_oidc.

Module resources.

Inductive Principal : Type :=
| ServicePrincipal (service : string)
| FederatedPrincipal (federated : string) (conditions : iam.Conditions)
    (assumeRoleAction : string).

(** Managed policies are kept by name. *)
Record Role : Type := {
  roleName : string;
  assumedBy : Principal;
  managedPolicies : list string
}.

Record CfnInstanceProfile : Type := {
  instanceProfileName : string;
  roles : list string
}.

(** [messageRetentionPeriod] in seconds. *)
Record Queue : Type := {
  queueName : string;
  messageRetentionPeriod : Z
}.

(** An event rule with the names of the queues it sends to. *)
Record Rule : Type := {
  ruleId : string;
  source : list string;
  detailType : list string;
  targets : list string
}.

End resources.

Section StackResources.

Import resources.

Variable Aws : cdk.Aws.
Variable cluster_clusterName : string.
Variable provider : eks_oidc.OpenIdConnectProvider.

Definition KarpenterNodeRole : Role :=
  {| roleName := "KarpenterNodeInstanceRole-" +:+ cluster_clusterName;
     assumedBy := ServicePrincipal "ec2.amazonaws.com";
     managedPolicies := [
       "AmazonEKSWorkerNodePolicy";
       "AmazonEKS_CNI_Policy";
       "AmazonEC2ContainerRegistryReadOnly";
       "AmazonSSMManagedInstanceCore" ] |}.

Definition KarpenterNodeInstanceProfile : CfnInstanceProfile :=
  {| instanceProfileName := "KarpenterNodeInstanceProfile-" +:+ cluster_clusterName;
     roles := [ roleName KarpenterNodeRole ] |}.

Definition KarpenterQueue : Queue :=
  {| queueName := "Karpenter-" +:+ cluster_clusterName;
     messageRetentionPeriod := 300 |}.

(** The trust conditions of the controller role; both keys are computed
    from the issuer of the cluster's OpenID Connect provider. *)
Definition KarpenterControllerRole_conditions : iam.Conditions :=
  let issuer := eks_oidc.openIdConnectProviderIssuer provider in
  Js.lit [
    ("StringEquals", Js.lit [
       (issuer +:+ ":sub", iam.One "system:serviceaccount:karpenter:karpenter");
       (issuer +:+ ":aud", iam.One "sts.amazonaws.com") ]) ].

(** The controller role, with the managed policy that
    [addManagedPolicy] attaches to it. *)
Definition KarpenterControllerRole (queueArn nodeRoleArn : string) : Role :=
  let policy :=
    KarpenterControllerPolicy Aws
      {| clusterName := cluster_clusterName;
         karpenterInterruptionQueueArn := queueArn;
         karpenterNodeRoleArn := nodeRoleArn |} in
  {| roleName := "KarpenterControllerRole-" +:+ cluster_clusterName;
     assumedBy :=
       FederatedPrincipal (eks_oidc.openIdConnectProviderArn provider)
         KarpenterControllerRole_conditions
         "sts:AssumeRoleWithWebIdentity";
     managedPolicies := [ iam.managedPolicyName policy ] |}.

(** The three event rules, each with the queue added as its target. *)
Definition KarpenterRules : list Rule :=
  let queue := queueName KarpenterQueue in
  [ {| ruleId := "SpotInterruptionRule";
       source := [ "aws.ec2" ];
       detailType := [ "EC2 Spot Instance Interruption Warning" ];
       targets := [ queue ] |};
    {| ruleId := "ScheduledChangeRule";
       source := [ "aws.health" ];
       detailType := [ "AWS Health Event" ];
       targets := [ queue ] |};
    {| ruleId := "InstanceStateChangeRule";
       source := [ "aws.ec2" ];
       detailType := [ "EC2 Instance State-change Notification" ];
       targets := [ queue ] |} ].

End StackResources.

(** The subject a service account of a namespace presents to the identity
    provider. *)
Definition service_account_subject (ns name : string) : string :=
  "system:serviceaccount:" +:+ ns +:+ ":" +:+ name.

(** ** The app ([bin]): the environment of the main stack *)

(** [a || b] for a string that may be undefined: undefined and the empty
    string are falsy. *)
Definition js_or (a : option string) (b : string) : string :=
  match a with
  | Some (String c s) => String c s
  | Some EmptyString | None => b
  end.

Record ProcessEnv : Type := {
  CDK_DEFAULT_ACCOUNT : option string;
  CDK_DEFAULT_REGION : option string
}.

Record StackEnv : Type := {
  env_account : option string;
  env_region : string
}.

Definition app_env (e : ProcessEnv) : StackEnv :=
  {| env_account := CDK_DEFAULT_ACCOUNT e;
     env_region := js_or (CDK_DEFAULT_REGION e) "us-west-2" |}.

(** [cdk.Tags.of(subnet).add('karpenter.sh/discovery', cluster.clusterName)]
    on every private subnet of the VPC, at the end of the constructor of
    [KarpenterStack]. *)
Definition subnet_tags (cfg : Config) : list (string * string) :=
  [ ("karpenter.sh/discovery", eks.clusterName (cluster cfg)) ].

(** ** The main stack ([main-stack.ts]) *)

(** What the main stack reads from its surroundings: its region and the
    attributes the platform gives the cluster and the controller role. *)
Record MainStackEnv : Type := {
  stack_region : string;
  cluster_clusterEndpoint : string;
  cluster_clusterCertificateAuthorityData : string;
  controllerRoleArn : string
}.

Section MainStack.

Import constructs.

Variable env : MainStackEnv.

(** [new eks.Cluster(this, 'EksCluster', { clusterName: 'karpenter-demo', ... })] *)
Definition EksCluster : eks.Cluster :=
  {| eks.clusterName := "karpenter-demo";
     eks.clusterEndpoint := cluster_clusterEndpoint env |}.

(** [new KarpenterStack(this, 'Karpenter', { cluster, vpc })] *)
Definition karpenterStack_config : Config :=
  {| cluster := EksCluster;
     region := stack_region env;
     karpenterControllerRoleArn := controllerRoleArn env |}.

Let clusterName := eks.clusterName EksCluster.
Let clusterEndpoint := eks.clusterEndpoint EksCluster.
Let clusterCertificateAuthorityData := cluster_clusterCertificateAuthorityData env.

(** [cdk.Tags.of(karpenterNodeSecurityGroup).add('karpenter.sh/discovery',
    cluster.clusterName)] *)
Definition karpenterNodeSecurityGroup_tags : list (string * string) :=
  [ ("karpenter.sh/discovery", clusterName) ].

Definition ExampleWorkload_manifest : Json :=
  obj [
    ("apiVersion", JStr "apps/v1");
    ("kind", JStr "Deployment");
    ("metadata", obj [
       ("name", JStr "example-workload");
       ("namespace", JStr "default") ]);
    ("spec", obj [
       ("replicas", JNum 0);
       ("selector", obj [
          ("matchLabels", obj [ ("app", JStr "example-workload") ]) ]);
       ("template", obj [
          ("metadata", obj [
             ("labels", obj [ ("app", JStr "example-workload") ]) ]);
          ("spec", obj [
             ("tolerations", JArr [
                obj [
                  ("key", JStr "karpenter.sh/unschedulable");
                  ("operator", JStr "Exists");
                  ("effect", JStr "NoSchedule") ] ]);
             ("nodeSelector", obj [ ("node-type", JStr "karpenter") ]);
             ("containers", JArr [
                obj [
                  ("name", JStr "app");
                  ("image", JStr "nginx:latest");
                  ("resources", obj [
                     ("requests", obj [
                        ("cpu", JStr "100m");
                        ("memory", JStr "128Mi") ]);
                     ("limits", obj [
                        ("cpu", JStr "500m");
                        ("memory", JStr "512Mi") ]) ]);
                  ("ports", JArr [
                     obj [ ("containerPort", JNum 80) ] ]) ] ]) ]) ]) ]) ].

Definition GitHubRunnersNodePool_manifest : Json :=
  obj [
    ("apiVersion", JStr "karpenter.sh/v1");
    ("kind", JStr "NodePool");
    ("metadata", obj [
       ("name", JStr "github-runners");
       ("namespace", JStr "karpenter") ]);
    ("spec", obj [
       ("template", obj [
          ("metadata", obj [
             ("labels", obj [
                ("node-type", JStr "github-runner");
                ("workload-type", JStr "ci-cd") ]);
             ("annotations", obj [
                ("cluster-autoscaler.kubernetes.io/safe-to-evict", JStr "true") ]) ]);
          ("spec", obj [
             ("requirements", JArr [
                requirement "kubernetes.io/arch" [ "amd64" ];
                requirement "kubernetes.io/os" [ "linux" ];
                requirement "karpenter.sh/capacity-type" [ "spot"; "on-demand" ];
                requirement "node.kubernetes.io/instance-type"
                  [ "m5.large"; "m5.xlarge"; "m5.2xlarge"; "m5.4xlarge";
                    "c5.2xlarge"; "c5.4xlarge" ] ]);
             ("nodeClassRef", obj [
                ("apiVersion", JStr "karpenter.k8s.aws/v1");
                ("kind", JStr "EC2NodeClass");
                ("name", JStr "github-runners") ]);
             ("taints", JArr [
                obj [
                  ("key", JStr "github-runner");
                  ("value", JStr "true");
                  ("effect", JStr "NoSchedule") ] ]) ]) ]);
       ("disruption", obj [
          ("consolidationPolicy", JStr "WhenEmpty");
          ("consolidateAfter", JStr "30s");
          ("expireAfter", JStr "10m") ]);
       ("limits", obj [
          ("cpu", JStr "500");
          ("memory", JStr "500Gi") ]) ]) ].

(** The Bottlerocket settings the node class passes as user data. *)
Definition github_runners_userdata_lines : list string := [
          "[settings.kubernetes]";
          "cluster-name = " +:+ dq +:+ clusterName +:+ dq;
          "api-server = " +:+ dq +:+ clusterEndpoint +:+ dq;
          "cluster-certificate = " +:+ dq +:+ clusterCertificateAuthorityData +:+ dq;
          EmptyString;
          "[settings.container-runtime]";
          "max-container-log-line-size = 16384";
          EmptyString;
          "[settings.container-registry]";
          "# Configure Google Container Registry mirror for Docker Hub";
          dq +:+ "docker.io" +:+ dq +:+ " = " +:+ dq +:+ "https://mirror.gcr.io" +:+ dq;
          "# Add your GHES registry (replace with your actual GHES domain)";
          "# " +:+ dq +:+ "ghes.your-company.com" +:+ dq +:+ " = " +:+ dq +:+ "https://ghes.your-company.com" +:+ dq;
          EmptyString;
          "[settings.container-registry.credentials]";
          "# GHES registry credentials will be managed by Kubernetes secrets";
          "# The kubelet will handle authentication via imagePullSecrets";
          EmptyString;
          "[settings.network]";
          "https-proxy = " +:+ dq +:+ dq;
          "no-proxy = [" +:+ dq +:+ "169.254.169.254" +:+ dq +:+ ", " +:+ dq +:+ "10.0.0.0/8" +:+ dq +:+ ", " +:+ dq +:+ "ghes.your-company.com" +:+ dq +:+ "]";
          EmptyString;
          "[settings.host-containers.admin]";
          "enabled = true";
          "superpowered = true";
          EmptyString;
          "[settings.host-containers.control]";
          "enabled = true";
          "superpowered = false";
          EmptyString;
          "# Additional settings for CI/CD workloads";
          "[settings.kernel]";
          "lockdown = " +:+ dq +:+ "none" +:+ dq;
          EmptyString;
          "[settings.kernel.sysctl]";
          dq +:+ "user.max_user_namespaces" +:+ dq +:+ " = " +:+ dq +:+ "65536" +:+ dq;
          dq +:+ "user.max_pid_namespaces" +:+ dq +:+ " = " +:+ dq +:+ "65536" +:+ dq ].

Definition ebs (volumeSize : string) : Json :=
  obj [
    ("volumeSize", JStr volumeSize);
    ("volumeType", JStr "gp3");
    ("iops", JNum 3000);
    ("throughput", JNum 125);
    ("deleteOnTermination", JBool true);
    ("encrypted", JBool true) ].

(** As in the Karpenter stack, the second key of [tags] is written as the
    expression ['kubernetes.io/cluster/' + cluster.clusterName] and read as
    the computed key it stands for. *)
Definition GitHubRunnersNodeClass_manifest : Json :=
  obj [
    ("apiVersion", JStr "karpenter.k8s.aws/v1");
    ("kind", JStr "EC2NodeClass");
    ("metadata", obj [
       ("name", JStr "github-runners");
       ("namespace", JStr "karpenter") ]);
    ("spec", obj [
       ("amiFamily", JStr "Bottlerocket");
       ("subnetSelectorTerms", JArr [
          obj [ ("tags", obj [ ("karpenter.sh/discovery", JStr clusterName) ]) ] ]);
       ("securityGroupSelectorTerms", JArr [
          obj [ ("tags", obj [ ("karpenter.sh/discovery", JStr clusterName) ]) ] ]);
       ("instanceStorePolicy", JStr "RAID0");
       ("userData", Fn_base64 (join_lines github_runners_userdata_lines));
       ("blockDeviceMappings", JArr [
          obj [ ("deviceName", JStr "/dev/xvda"); ("ebs", ebs "20Gi") ];
          obj [ ("deviceName", JStr "/dev/xvdb"); ("ebs", ebs "200Gi") ] ]);
       ("role", JStr (karpenterNodeRole_roleName karpenterStack_config));
       ("tags", obj [
          ("karpenter.sh/discovery", JStr clusterName);
          ("kubernetes.io/cluster/" +:+ clusterName, JStr "owned");
          ("node-type", JStr "github-runner");
          ("workload-type", JStr "ci-cd") ]) ]) ].

(** The manifest part of the constructor of [MainStack].  The Karpenter
    stack adds its manifests to the same cluster first.  The three manifests
    of the main stack are made to depend on the construct [karpenterStack],
    which is no manifest; their handles are what the function returns. *)
Definition MainStack : M (list nat) :=
  KarpenterStack karpenterStack_config;;
  exampleWorkload ← addManifest "ExampleWorkload" ExampleWorkload_manifest;
  githubRunnersNodePool ←
    addManifest "GitHubRunnersNodePool" GitHubRunnersNodePool_manifest;
  githubRunnersNodeClass ←
    addManifest "GitHubRunnersNodeClass" GitHubRunnersNodeClass_manifest;
  (* Add dependencies *)
  mret [ exampleWorkload; githubRunnersNodePool; githubRunnersNodeClass ].

End MainStack.

(** The node class a NodePool manifest refers to: apiVersion, kind, name. *)
Definition nodeClassRef (j : Json) : option (string * string * string) :=
  let at_ref k := str_at [ "spec"; "template"; "spec"; "nodeClassRef"; k ] j in
  match at_ref "apiVersion", at_ref "kind", at_ref "name" with
  | Some a, Some k, Some n => Some (a, k, n)
  | _, _, _ => None
  end.

(** Whether a manifest of the arena, in namespace [ns], is what [ref] names. *)
Definition resolves (g : constructs.Cluster) (ns : option string)
  (ref : string * string * string) : bool :=
  existsb (fun m =>
             bool_decide
               (str_at [ "apiVersion" ] (constructs.manifest m) = Some (fst (fst ref)) /\
                identity m = (Some (snd (fst ref)), ns, Some (snd ref)))) g.

(** Whether a selector term selects a resource with the given tags: every
    tag the term asks for is one of them. *)
Definition selects (term : Json) (tags : list (string * string)) : bool :=
  match field "tags" term with
  | Some (JObj wanted) =>
      forallb (fun kv =>
                 match snd kv with
                 | JStr v => bool_decide ((fst kv, v) ∈ tags)
                 | _ => false
                 end) wanted
  | _ => false
  end.

(** ** The runs of a template *)

(** The pieces of a template grouped into the text before the first
    placeholder and, for every placeholder, its name and the text that
    follows it. *)
Fixpoint group_pieces (ps : list Piece) : string * list (string * string) :=
  match ps with
  | [] => (EmptyString, [])
  | Text c :: ps' =>
      let '(t, rest) := group_pieces ps' in (String c t, rest)
  | Placeholder n :: ps' =>
      let '(t, rest) := group_pieces ps' in (EmptyString, (n, t) :: rest)
  end.

(** The values of the placeholders, each followed by its text. *)
Fixpoint fill (vars : gmap string string) (groups : list (string * string))
  : RenderResult :=
  match groups with
  | [] => Rendered EmptyString
  | (n, t) :: rest =>
      match vars !! n with
      | None => Failed (MissingVariable n)
      | Some v =>
          match fill vars rest with
          | Rendered s => Rendered (v +:+ t +:+ s)
          | Failed e => Failed e
          end
      end
  end.

Definition ends_with (suffix s : string) : bool :=
  Nat.leb (String.length suffix) (String.length s) &&
  String.eqb
    (String.substring (String.length s - String.length suffix)
       (String.length suffix) s)
    suffix.

(** * Properties *)

(** ** Object literals behave as maps *)

Lemma get_set_eq {V : Type} (k : string) (v : V) (o : Js.Obj V) :
  Js.get k (Js.set k v o) = Some v.
Proof.
  induction o as [| [k' v'] o IH]; cbn [Js.set Js.get].
  - rewrite String.eqb_refl. reflexivity.
  - destruct (String.eqb k' k) eqn:E; cbn [Js.get]; rewrite E; auto.
Qed.

Lemma get_set_ne {V : Type} (k k' : string) (v : V) (o : Js.Obj V) :
  String.eqb k' k = false ->
  Js.get k (Js.set k' v o) = Js.get k o.
Proof.
  intros Hne. induction o as [| [k2 v2] o IH]; cbn [Js.set Js.get].
  - rewrite Hne. reflexivity.
  - destruct (String.eqb k2 k') eqn:E; cbn [Js.get].
    + apply String.eqb_eq in E. subst k2. rewrite Hne. reflexivity.
    + rewrite IH. reflexivity.
Qed.

(** ** The policy assembler *)

Lemma buildControllerPolicy_length (Aws : cdk.Aws) (c q r : string) :
  List.length (buildControllerPolicy Aws c q r) = 16.
Proof. reflexivity. Qed.

Lemma buildControllerPolicy_shape (Aws : cdk.Aws) (c q r : string) :
  map shape (buildControllerPolicy Aws c q r)
  = map shape (buildControllerPolicy Aws EmptyString EmptyString EmptyString).
Proof. vm_compute. reflexivity. Qed.

Lemma buildControllerPolicy_sids (Aws : cdk.Aws) (c q r : string) :
  map iam.sid (buildControllerPolicy Aws c q r) =
  [ "AllowScopedEC2InstanceAccessActions";
    "AllowScopedEC2LaunchTemplateAccessActions";
    "AllowScopedEC2InstanceActionsWithTags";
    "AllowScopedResourceCreationTagging";
    "AllowScopedResourceTagging";
    "AllowScopedDeletion";
    "AllowRegionalReadActions";
    "AllowSSMReadActions";
    "AllowPricingReadActions";
    "AllowInterruptionQueueActions";
    "AllowPassingInstanceRole";
    "AllowScopedInstanceProfileCreationActions";
    "AllowScopedInstanceProfileTagActions";
    "AllowScopedInstanceProfileActions";
    "AllowInstanceProfileReadActions";
    "AllowAPIServerEndpointDiscovery" ].
Proof. reflexivity. Qed.

(** C2: for every triple of input strings the policy has 16 statements, the
    statements have the same shape whatever the inputs are (the inputs are
    only spliced into strings), and equal inputs give equal statement
    sequences. *)
Theorem buildControllerPolicy_fixed_and_deterministic :
  forall (Aws : cdk.Aws) (c q r : string),
    List.length (buildControllerPolicy Aws c q r) = 16 /\
    (forall c' q' r' : string,
       map shape (buildControllerPolicy Aws c' q' r')
       = map shape (buildControllerPolicy Aws c q r)) /\
    (forall c' q' r' : string,
       c' = c -> q' = q -> r' = r ->
       buildControllerPolicy Aws c' q' r' = buildControllerPolicy Aws c q r).
Proof.
  intros Aws c q r. split; [apply buildControllerPolicy_length | split].
  - intros c' q' r'.
    rewrite (buildControllerPolicy_shape Aws c' q' r').
    symmetry. apply buildControllerPolicy_shape.
  - intros c' q' r' -> -> ->. reflexivity.
Qed.

(** C5: with the interruption queue ARN
    [arn:aws:sqs:us-west-2:123:Karpenter-demo], the statement
    [AllowInterruptionQueueActions] has exactly that ARN as its resource
    list. *)
Theorem interruption_queue_resources :
  forall (Aws : cdk.Aws) (c r : string),
    iam.resources <$>
      find_sid "AllowInterruptionQueueActions"
        (buildControllerPolicy Aws c "arn:aws:sqs:us-west-2:123:Karpenter-demo" r)
    = Some [ "arn:aws:sqs:us-west-2:123:Karpenter-demo" ].
Proof. reflexivity. Qed.

(** The same for any queue ARN. *)
Lemma interruption_queue_resources_any (Aws : cdk.Aws) (c q r : string) :
  iam.resources <$>
    find_sid "AllowInterruptionQueueActions" (buildControllerPolicy Aws c q r)
  = Some [ q ].
Proof. reflexivity. Qed.

Lemma passing_instance_role_resources (Aws : cdk.Aws) (c q r : string) :
  iam.resources <$>
    find_sid "AllowPassingInstanceRole" (buildControllerPolicy Aws c q r)
  = Some [ r ].
Proof. reflexivity. Qed.

(** C8: the statement [AllowScopedInstanceProfileTagActions] carries, for
    each of the tag keys [kubernetes.io/cluster/<clusterName>],
    [topology.kubernetes.io/region] and [karpenter.k8s.aws/ec2nodeclass],
    both the [aws:ResourceTag] and the [aws:RequestTag] condition key, with
    the same required value. *)
Theorem instance_profile_tag_keys_repeated :
  forall (Aws : cdk.Aws) (c q r : string),
  exists st,
    find_sid "AllowScopedInstanceProfileTagActions"
      (buildControllerPolicy Aws c q r) = Some st /\
    tag_repeated "StringEquals" ("kubernetes.io/cluster/" +:+ c)
      (iam.One "owned") st /\
    tag_repeated "StringEquals" "topology.kubernetes.io/region"
      (iam.One (cdk.REGION Aws)) st /\
    tag_repeated "StringLike" "karpenter.k8s.aws/ec2nodeclass"
      (iam.One "*") st.
Proof.
  intros Aws c q r. eexists. split; [reflexivity |].
  unfold tag_repeated, condition.
  cbn [iam.conditions Js.lit fold_left fst snd clusterName].
  repeat first [ rewrite get_set_eq | rewrite get_set_ne by reflexivity ].
  change ("aws:ResourceTag/" +:+ "kubernetes.io/cluster/" +:+ c)
    with ("aws:ResourceTag/kubernetes.io/cluster/" +:+ c).
  change ("aws:RequestTag/" +:+ "kubernetes.io/cluster/" +:+ c)
    with ("aws:RequestTag/kubernetes.io/cluster/" +:+ c).
  repeat first [ rewrite get_set_eq | rewrite get_set_ne by reflexivity ].
  repeat split.
Qed.

(** C9: the assembler returns its 16 statements for every triple of strings,
    the empty string included, and it passes the two ARNs on as they are. *)
Theorem buildControllerPolicy_total :
  forall (Aws : cdk.Aws) (c q r : string),
  exists stmts,
    buildControllerPolicy Aws c q r = stmts /\
    List.length stmts = 16 /\
    iam.resources <$> find_sid "AllowInterruptionQueueActions" stmts = Some [ q ] /\
    iam.resources <$> find_sid "AllowPassingInstanceRole" stmts = Some [ r ].
Proof.
  intros Aws c q r. eexists. split; [reflexivity |].
  repeat split.
Qed.

(** C10: every statement of the policy has effect [Allow]. *)
Theorem buildControllerPolicy_all_allow :
  forall (Aws : cdk.Aws) (c q r : string),
    Forall (fun st => iam.effect st = iam.ALLOW) (buildControllerPolicy Aws c q r).
Proof.
  intros Aws c q r. unfold buildControllerPolicy. cbn [iam.statements KarpenterControllerPolicy].
  repeat constructor.
Qed.

(** ** The manifest graph builder *)

Import constructs.

(** The constructor succeeds on every configuration, and this is the arena
    it leaves. *)
Lemma buildDeploymentGraph_eq (cfg : Config) :
  buildDeploymentGraph cfg = Ok [
    {| id := "KarpenterNamespace";
       manifest := KarpenterNamespace_manifest; dependsOn := [] |};
    {| id := "KarpenterServiceAccount";
       manifest := KarpenterServiceAccount_manifest cfg; dependsOn := [0] |};
    {| id := "KarpenterController";
       manifest := KarpenterController_manifest; dependsOn := [1] |};
    {| id := "KarpenterInstallerRole";
       manifest := KarpenterInstallerRole_manifest; dependsOn := [] |};
    {| id := "KarpenterInstallerRoleBinding";
       manifest := KarpenterInstallerRoleBinding_manifest; dependsOn := [] |};
    {| id := "KarpenterInstallJob";
       manifest := KarpenterInstallJob_manifest cfg; dependsOn := [2] |};
    {| id := "DefaultNodePool";
       manifest := DefaultNodePool_manifest; dependsOn := [5] |};
    {| id := "DefaultNodeClass";
       manifest := DefaultNodeClass_manifest cfg; dependsOn := [5] |} ].
Proof. reflexivity. Qed.

Lemma deps_point_back_from_lookup (g : Cluster) :
  forall i k n,
    deps_point_back_from i g = true ->
    g !! k = Some n ->
    forall d, In d (dependsOn n) -> d < i + k.
Proof.
  induction g as [| m g IH]; intros i k n Hb Hk d Hd.
  - discriminate Hk.
  - cbn [deps_point_back_from] in Hb.
    apply andb_prop in Hb as [Hm Hg].
    destruct k as [| k]; cbn in Hk.
    + injection Hk as ->.
      rewrite forallb_forall in Hm.
      specialize (Hm d Hd). apply Nat.ltb_lt in Hm. lia.
    + specialize (IH (S i) k n Hg Hk d Hd). lia.
Qed.

Lemma edge_points_back (g : Cluster) :
  deps_point_back g = true -> forall i j, edge g i j -> j < i.
Proof.
  intros Hb i j (n & Hn & Hd).
  exact (deps_point_back_from_lookup g 0 i n Hb Hn j Hd).
Qed.

Lemma tc_edge_points_back (g : Cluster) :
  deps_point_back g = true -> forall i j, tc (edge g) i j -> j < i.
Proof.
  intros Hb i j Hij.
  induction Hij as [i j Hij | i k j Hik _ IH].
  - exact (edge_points_back g Hb i j Hij).
  - pose proof (edge_points_back g Hb i k Hik). lia.
Qed.

(** A graph whose edges all point to earlier nodes has no cycle. *)
Lemma deps_point_back_acyclic (g : Cluster) :
  deps_point_back g = true -> acyclic g.
Proof.
  intros Hb i Hii.
  pose proof (tc_edge_points_back g Hb i i Hii). lia.
Qed.

(** C3: for every configuration the builder returns a graph, and no node of
    it reaches itself along dependsOn edges. *)
Theorem buildDeploymentGraph_acyclic :
  forall cfg : Config,
  exists g, buildDeploymentGraph cfg = Ok g /\ acyclic g.
Proof.
  intros cfg. eexists. split; [apply buildDeploymentGraph_eq |].
  apply deps_point_back_acyclic. reflexivity.
Qed.

(** C4: the nodes are built in the order namespace, service account, config
    map (then the installer's cluster role and binding), job, node pool and
    node class; the edges are service account to namespace, config map to
    service account, job to config map, and both custom resources to the
    job, and there are no others. *)
Theorem buildDeploymentGraph_order_and_edges :
  forall cfg : Config,
  exists g,
    buildDeploymentGraph cfg = Ok g /\
    map kind g =
      [ Some "Namespace"; Some "ServiceAccount"; Some "ConfigMap";
        Some "ClusterRole"; Some "ClusterRoleBinding";
        Some "Job"; Some "NodePool"; Some "EC2NodeClass" ] /\
    map id g =
      [ "KarpenterNamespace"; "KarpenterServiceAccount"; "KarpenterController";
        "KarpenterInstallerRole"; "KarpenterInstallerRoleBinding";
        "KarpenterInstallJob"; "DefaultNodePool"; "DefaultNodeClass" ] /\
    map dependsOn g = [ []; [0]; [1]; []; []; [2]; [5]; [5] ] /\
    edges_by kind g =
      [ (Some "ServiceAccount", Some "Namespace");
        (Some "ConfigMap", Some "ServiceAccount");
        (Some "Job", Some "ConfigMap");
        (Some "NodePool", Some "Job");
        (Some "EC2NodeClass", Some "Job") ].
Proof.
  intros cfg. eexists. split; [apply buildDeploymentGraph_eq |].
  repeat split.
Qed.

(** C1, as the specification states it, fails: in the graph built for the
    cluster name [demo] the dependency set of the installer job does not
    consist of the service-account node. *)
Lemma installJob_not_only_on_serviceAccount :
  exists g,
    buildDeploymentGraph demoConfig = Ok g /\
    ~ depends_only_on "Job" "ServiceAccount" g.
Proof.
  eexists. split; [apply buildDeploymentGraph_eq |].
  intros (i & j & n & Hi & Hj & Hn & Hd).
  vm_compute in Hi. injection Hi as <-.
  vm_compute in Hj. injection Hj as <-.
  cbn in Hn. injection Hn as <-.
  cbn [dependsOn] in Hd.
  assert (H : 2 = 1) by (apply Hd; left; reflexivity).
  discriminate H.
Qed.

(** C1, amended: for the cluster name [demo] the dependency set of the
    installer job holds the config-map node and nothing else; the
    service-account node is no member of it, and the job reaches it through
    the config map. *)
Theorem installJob_depends_on_configMap :
  forall cfg : Config,
    eks.clusterName (cluster cfg) = "demo" ->
    exists g,
      buildDeploymentGraph cfg = Ok g /\
      depends_only_on "Job" "ConfigMap" g /\
      exists job cm sa,
        node_of_kind "Job" g = Some job /\
        node_of_kind "ConfigMap" g = Some cm /\
        node_of_kind "ServiceAccount" g = Some sa /\
        ~ edge g job sa /\
        edge g job cm /\ edge g cm sa.
Proof.
  intros cfg _. eexists. split; [apply buildDeploymentGraph_eq |].
  split.
  - exists 5, 2. eexists. repeat split.
    + intros [<- | []]. reflexivity.
    + intros ->. left. reflexivity.
  - exists 5, 2, 1. repeat split.
    + intros (n & Hn & Hd). cbn in Hn. injection Hn as <-.
      cbn in Hd. destruct Hd as [Hd | []]. discriminate Hd.
    + eexists. split; [reflexivity | left; reflexivity].
    + eexists. split; [reflexivity | left; reflexivity].
Qed.

(** The amended C1 at the demo configuration. *)
Lemma installJob_depends_on_configMap_demo :
  eks.clusterName (cluster demoConfig) = "demo" /\
  exists g,
    buildDeploymentGraph demoConfig = Ok g /\
    depends_only_on "Job" "ConfigMap" g /\
    exists job cm sa,
      node_of_kind "Job" g = Some job /\
      node_of_kind "ConfigMap" g = Some cm /\
      node_of_kind "ServiceAccount" g = Some sa /\
      ~ edge g job sa /\
      edge g job cm /\ edge g cm sa.
Proof.
  split; [reflexivity |].
  apply (installJob_depends_on_configMap demoConfig). reflexivity.
Defined.

(** ** The script emitter *)

Lemma placeholders_In (template n : string) :
  In n (placeholders template) <-> In (Placeholder n) (pieces template).
Proof.
  unfold placeholders. generalize (pieces template) as ps.
  induction ps as [| [c | m] ps IH]; cbn.
  - tauto.
  - rewrite IH. split; [auto | intros [H | H]; [discriminate H | exact H]].
  - rewrite IH. split; intros [H | H]; auto; left; congruence.
Qed.

(** Substitution fails exactly when a placeholder among the pieces has no
    value, and the name it reports is such a placeholder. *)
Lemma substitute_failed (vars : gmap string string) (ps : list Piece) (n : string) :
  substitute vars ps = Failed (MissingVariable n) ->
  In (Placeholder n) ps /\ vars !! n = None.
Proof.
  induction ps as [| [c | m] ps IH]; cbn [substitute].
  - discriminate.
  - destruct (substitute vars ps) as [s | e]; [discriminate |].
    intros H. injection H as ->. destruct (IH eq_refl). split; [right |]; assumption.
  - destruct (vars !! m) as [v |] eqn:Hm.
    + destruct (substitute vars ps) as [s | e]; [discriminate |].
      intros H. injection H as ->. destruct (IH eq_refl). split; [right |]; assumption.
    + intros H. injection H as <-. split; [left; reflexivity | exact Hm].
Qed.

Lemma substitute_missing (vars : gmap string string) (ps : list Piece) (n : string) :
  In (Placeholder n) ps -> vars !! n = None ->
  exists m, substitute vars ps = Failed (MissingVariable m).
Proof.
  intros Hin Hn. induction ps as [| [c | m] ps IH]; cbn [substitute].
  - destruct Hin.
  - destruct Hin as [H | H]; [discriminate H |].
    destruct (IH H) as [m ->]. exists m. reflexivity.
  - destruct (vars !! m) as [v |] eqn:Hm.
    + destruct Hin as [H | H]; [injection H as ->; congruence |].
      destruct (IH H) as [m' ->]. exists m'. reflexivity.
    + exists m. reflexivity.
Qed.

(** The general part of C6: rendering fails with [MissingVariable] exactly
    when some placeholder of the template has no supplied value. *)
Lemma renderTemplate_fails_iff (t : TemplateId) (vars : gmap string string) :
  (exists n, renderTemplate t vars = Failed (MissingVariable n)) <->
  (exists n, In n (placeholders (template_text t)) /\ vars !! n = None).
Proof.
  unfold renderTemplate, render. split.
  - intros [n H]. exists n. rewrite placeholders_In.
    exact (substitute_failed vars _ n H).
  - intros (n & Hin & Hn). rewrite placeholders_In in Hin.
    exact (substitute_missing vars _ n Hin Hn).
Qed.

(** The template refers to [CRUN_VERSION] twice, in the download line of
    crun, and to [CLUSTER_NAME] once, in the bootstrap line. *)
Lemma node_group_userdata_placeholders :
  placeholders (template_text NodeGroupUserdata)
  = [ "CRUN_VERSION"; "CRUN_VERSION"; "CLUSTER_NAME" ].
Proof. vm_compute. reflexivity. Qed.

(** C6 at the input the node-group configuration supplies: with
    [CLUSTER_NAME = demo] alone the rendering fails, because the template
    also writes the shell variable of its crun download as a placeholder. *)
Theorem renderTemplate_demo_fails :
  renderTemplate NodeGroupUserdata (user_data_vars "demo")
  = Failed (MissingVariable "CRUN_VERSION").
Proof. vm_compute. reflexivity. Qed.

(** Without [CLUSTER_NAME] the rendering fails with [MissingVariable]. *)
Lemma renderTemplate_without_cluster_name (vars : gmap string string) :
  vars !! "CLUSTER_NAME" = None ->
  exists n, renderTemplate NodeGroupUserdata vars = Failed (MissingVariable n).
Proof.
  intros H. apply renderTemplate_fails_iff. exists "CLUSTER_NAME".
  rewrite node_group_userdata_placeholders. split; [| exact H].
  right. right. left. reflexivity.
Qed.

(** With a value for both names the rendering succeeds and the bootstrap
    line carries the cluster name. *)
Lemma renderTemplate_both_supplied :
  exists text,
    renderTemplate NodeGroupUserdata
      (<[ "CRUN_VERSION" := "1.8.7" ]> (user_data_vars "demo")) = Rendered text /\
    contains "/etc/eks/bootstrap.sh demo \" text = true.
Proof. eexists. split; vm_compute; reflexivity. Qed.

(** The output depends on the variables only through the values of the
    placeholders the template refers to. *)
Lemma substitute_ext (vars1 vars2 : gmap string string) (ps : list Piece) :
  (forall n, In (Placeholder n) ps -> vars1 !! n = vars2 !! n) ->
  substitute vars1 ps = substitute vars2 ps.
Proof.
  induction ps as [| [c | m] ps IH]; intros H; cbn [substitute].
  - reflexivity.
  - rewrite IH; [reflexivity |]. intros n Hn. apply H. right. exact Hn.
  - rewrite (H m) by (left; reflexivity).
    rewrite IH; [reflexivity |]. intros n Hn. apply H. right. exact Hn.
Qed.

Lemma renderTemplate_ext (t : TemplateId) (vars1 vars2 : gmap string string) :
  (forall n, In n (placeholders (template_text t)) -> vars1 !! n = vars2 !! n) ->
  renderTemplate t vars1 = renderTemplate t vars2.
Proof.
  intros H. apply substitute_ext. intros n Hn. apply H.
  rewrite placeholders_In. exact Hn.
Qed.

(** C7: two renderings of the same template with the same variables give
    the same result, byte for byte. *)
Theorem renderTemplate_deterministic :
  forall (t : TemplateId) (vars : gmap string string) (out1 out2 : RenderResult),
    renderTemplate t vars = out1 ->
    renderTemplate t vars = out2 ->
    out1 = out2.
Proof. intros t vars out1 out2 <- <-. reflexivity. Qed.

(** C7 at the node-group template, with the same mapping written in two
    ways. *)
Lemma renderTemplate_deterministic_demo :
  let vars := <[ "CRUN_VERSION" := "1.8.7" ]> (user_data_vars "demo") in
  renderTemplate NodeGroupUserdata vars
  = renderTemplate NodeGroupUserdata (user_data_vars "demo" ∪ {[ "CRUN_VERSION" := "1.8.7" ]}).
Proof.
  intros vars.
  apply (renderTemplate_deterministic NodeGroupUserdata vars);
    [ reflexivity | vm_compute; reflexivity ].
Defined.

(** * Further properties of the manifest graph *)

(** ** Reachability in a graph built in creation order *)

Lemma descendants_fuel_sound (g : Cluster) :
  forall fuel i j, In j (descendants_fuel g fuel i) -> tc (edge g) i j.
Proof.
  induction fuel as [| fuel IH]; intros i j H; [destruct H |].
  cbn [descendants_fuel] in H.
  destruct (g !! i) as [n |] eqn:Hn; [| destruct H].
  apply in_flat_map in H as (d & Hd & [<- | Hj]).
  - apply tc_once. exists n. split; assumption.
  - apply tc_l with d; [exists n; split; assumption | apply IH; exact Hj].
Qed.

Lemma descendants_fuel_complete (g : Cluster) :
  deps_point_back g = true ->
  forall fuel i j, i < fuel -> tc (edge g) i j -> In j (descendants_fuel g fuel i).
Proof.
  intros Hb. induction fuel as [| fuel IH]; intros i j Hlt Hij; [lia |].
  cbn [descendants_fuel].
  destruct Hij as [i j He | i d j He Hdj].
  - destruct He as (n & Hn & Hd). rewrite Hn.
    apply in_flat_map. exists j. split; [exact Hd | left; reflexivity].
  - pose proof (edge_points_back g Hb i d He) as Hlt'.
    destruct He as (n & Hn & Hd). rewrite Hn.
    apply in_flat_map. exists d. split; [exact Hd | right].
    apply IH; [lia | exact Hdj].
Qed.

(** In a graph whose edges point back, [descendants] is reachability. *)
Lemma descendants_spec (g : Cluster) (i j : nat) :
  deps_point_back g = true ->
  tc (edge g) i j <-> In j (descendants g i).
Proof.
  intros Hb. split.
  - apply descendants_fuel_complete; [exact Hb | lia].
  - apply descendants_fuel_sound.
Qed.

Lemma edge_has_dependent (g : Cluster) (i j : nat) :
  edge g i j -> has_dependent g j = true.
Proof.
  intros (n & Hn & Hd). unfold has_dependent.
  apply existsb_exists. exists n. split.
  - apply list_elem_of_In. eapply list_elem_of_lookup_2. exact Hn.
  - apply existsb_exists. exists j. split; [exact Hd | apply Nat.eqb_refl].
Qed.

Ltac in_list := cbn; repeat first [ left; reflexivity | right ].

(** X1: the creation order is a topological order of the graph: every
    dependency of a node is a node of the graph that was created before it. *)
Theorem creation_order_topological :
  forall cfg : Config,
  exists g,
    buildDeploymentGraph cfg = Ok g /\
    forall i j, edge g i j -> j < i /\ i < List.length g.
Proof.
  intros cfg. eexists. split; [apply buildDeploymentGraph_eq |].
  intros i j He. split.
  - revert i j He. apply edge_points_back. reflexivity.
  - destruct He as (n & Hn & _). apply lookup_lt_Some in Hn. exact Hn.
Qed.

(** X2: every manifest that names a namespace in its metadata reaches, along
    dependsOn edges, the Namespace manifest of that name. *)
Theorem namespaced_manifests_follow_namespace :
  forall cfg : Config,
  exists g,
    buildDeploymentGraph cfg = Ok g /\
    forall i n ns,
      g !! i = Some n -> namespace_of n = Some ns ->
      exists j, find_node "Namespace" None ns g = Some j /\ tc (edge g) i j.
Proof.
  intros cfg. eexists. split; [apply buildDeploymentGraph_eq |].
  intros i n ns Hi Hns.
  do 8 (destruct i as [| i]; [ injection Hi as <-; vm_compute in Hns;
    first [ discriminate Hns
          | injection Hns as <-; exists 0; split; [ reflexivity |];
            apply descendants_spec; [ reflexivity | in_list ] ] |]).
  discriminate Hi.
Qed.

(** X3: no two manifests of the graph have the same kind, namespace and
    name, and no two have the same construct id. *)
Theorem manifest_identities_distinct :
  forall cfg : Config,
  exists g,
    buildDeploymentGraph cfg = Ok g /\
    NoDup (map identity g) /\ NoDup (map constructs.id g).
Proof.
  intros cfg. eexists. split; [apply buildDeploymentGraph_eq |].
  split; apply (bool_decide_unpack _); vm_compute; exact I.
Qed.

(** X4: the installer job reaches, along dependsOn edges, the service
    account its pod runs as and every config map its volumes name; both are
    manifests of the job's namespace. *)
Theorem installJob_references_precede_it :
  forall cfg : Config,
  exists g job jn,
    buildDeploymentGraph cfg = Ok g /\
    node_of_kind "Job" g = Some job /\ g !! job = Some jn /\
    (exists sa_name sa,
       job_serviceAccountName (manifest jn) = Some sa_name /\
       find_node "ServiceAccount" (namespace_of jn) sa_name g = Some sa /\
       tc (edge g) job sa) /\
    job_configMaps (manifest jn) <> [] /\
    Forall (fun cm_name =>
              exists cm,
                find_node "ConfigMap" (namespace_of jn) cm_name g = Some cm /\
                tc (edge g) job cm)
           (job_configMaps (manifest jn)).
Proof.
  intros cfg. eexists. exists 5. eexists.
  split; [apply buildDeploymentGraph_eq |].
  split; [reflexivity |]. split; [reflexivity |]. split; [| split].
  - exists "karpenter", 1. split; [reflexivity |]. split; [reflexivity |].
    apply descendants_spec; [ reflexivity | in_list ].
  - vm_compute. discriminate.
  - change (job_configMaps _) with [ "karpenter-install-script" ].
    constructor; [| constructor].
    exists 2. split; [reflexivity |].
    apply descendants_spec; [ reflexivity | in_list ].
Qed.

(** X5: the environment of the installer container sets exactly the
    variables that [install.sh], the script of the config map the job mounts,
    reads, and the job runs the script at the mount path of that volume. *)
Theorem installer_env_covers_script :
  forall cfg : Config,
  exists g jn cn container script,
    buildDeploymentGraph cfg = Ok g /\
    (exists job cm,
       node_of_kind "Job" g = Some job /\ g !! job = Some jn /\
       node_of_kind "ConfigMap" g = Some cm /\ g !! cm = Some cn) /\
    job_containers (manifest jn) = [ container ] /\
    str_at [ "data"; "install.sh" ] (manifest cn) = Some script /\
    (forall v, In v (shell_vars script) <-> In v (env_names container)) /\
    (exists mount,
       omap (str_at [ "mountPath" ]) (items_at [ "volumeMounts" ] container)
         = [ mount ] /\
       items_at [ "args" ] container = [ JStr (mount +:+ "/" +:+ "install.sh") ]).
Proof.
  intros cfg. eexists. do 4 eexists.
  split; [apply buildDeploymentGraph_eq |].
  split; [exists 5, 2; repeat split |].
  split; [reflexivity |]. split; [reflexivity |]. split.
  - intros v.
    change (env_names _) with
      [ "AWS_DEFAULT_REGION"; "CLUSTER_NAME"; "CLUSTER_ENDPOINT"; "INTERRUPTION_QUEUE" ].
    replace (shell_vars _) with
      [ "AWS_DEFAULT_REGION"; "CLUSTER_NAME"; "CLUSTER_NAME";
        "CLUSTER_ENDPOINT"; "INTERRUPTION_QUEUE" ]
      by (vm_compute; reflexivity).
    cbn. tauto.
  - exists "/scripts". split; reflexivity.
Qed.

(** X6: the cluster role of the installer and its binding take no part in
    the ordering, although the binding is what grants the job's service
    account its permissions: they depend on nothing and no manifest, the
    job included, depends on either. *)
Theorem installer_rbac_unordered :
  forall cfg : Config,
  exists g job role binding jn rn bn,
    buildDeploymentGraph cfg = Ok g /\
    (node_of_kind "Job" g = Some job /\ g !! job = Some jn) /\
    (node_of_kind "ClusterRole" g = Some role /\ g !! role = Some rn) /\
    (node_of_kind "ClusterRoleBinding" g = Some binding /\ g !! binding = Some bn) /\
    str_at [ "roleRef"; "name" ] (manifest bn) = name_of rn /\
    omap (str_at [ "name" ]) (items_at [ "subjects" ] (manifest bn))
      = option_list (job_serviceAccountName (manifest jn)) /\
    dependsOn rn = [] /\ dependsOn bn = [] /\
    forall i, ~ tc (edge g) i role /\ ~ tc (edge g) i binding.
Proof.
  intros cfg. eexists. exists 5, 3, 4. do 3 eexists.
  split; [apply buildDeploymentGraph_eq |].
  do 3 (split; [split; reflexivity |]).
  do 4 (split; [reflexivity |]).
  intros i. split; intros H.
  - assert (Hd : exists k, edge _ k 3)
      by (clear -H; induction H as [a b He | a b c _ _ IH]; [exists a; exact He | exact IH]).
    destruct Hd as [k Hk]. apply edge_has_dependent in Hk. discriminate Hk.
  - assert (Hd : exists k, edge _ k 4)
      by (clear -H; induction H as [a b He | a b c _ _ IH]; [exists a; exact He | exact IH]).
    destruct Hd as [k Hk]. apply edge_has_dependent in Hk. discriminate Hk.
Qed.

(** * Further properties of the controller policy *)

(** Splits a goal over the statements of a policy into one goal each. *)
Ltac each_statement :=
  unfold buildControllerPolicy;
  cbn [iam.statements KarpenterControllerPolicy
       clusterName karpenterInterruptionQueueArn karpenterNodeRoleArn];
  repeat apply List.Forall_cons; try apply List.Forall_nil.

Lemma append_inj_l (p a b : string) : p +:+ a = p +:+ b -> a = b.
Proof.
  induction p as [| c p IH]; intros H.
  - exact H.
  - change (String c (p +:+ a) = String c (p +:+ b)) in H.
    injection H as H. exact (IH H).
Qed.


(** X8: the queue ARN enters no statement but [AllowInterruptionQueueActions]
    and the role ARN none but [AllowPassingInstanceRole]: with those left
    out, the policy does not depend on them. *)
Theorem arns_enter_one_statement_each :
  forall (Aws : cdk.Aws) (c q r q' r' : string),
    without_sids [ "AllowInterruptionQueueActions" ] (buildControllerPolicy Aws c q r)
    = without_sids [ "AllowInterruptionQueueActions" ] (buildControllerPolicy Aws c q' r) /\
    without_sids [ "AllowPassingInstanceRole" ] (buildControllerPolicy Aws c q r)
    = without_sids [ "AllowPassingInstanceRole" ] (buildControllerPolicy Aws c q r') /\
    List.length
      (without_sids [ "AllowInterruptionQueueActions"; "AllowPassingInstanceRole" ]
         (buildControllerPolicy Aws c q r)) = 14.
Proof. intros. repeat split. Qed.

(** X9: when neither ARN passed in is the wildcard, a statement whose
    resources include the wildcard allows read actions only. *)
Theorem wildcard_resources_read_only :
  forall (Aws : cdk.Aws) (c q r : string),
    q <> "*" -> r <> "*" ->
    Forall (fun st =>
              In "*" (iam.resources st) ->
              forallb read_only_action (iam.actions st) = true)
           (buildControllerPolicy Aws c q r).
Proof.
  intros Aws c q r Hq Hr. each_statement; cbn [iam.resources iam.actions]; intros Hin;
    first
      [ reflexivity
      | exfalso; cbn [In] in Hin;
        repeat (destruct Hin as [Hin | Hin]; [try contradiction; cbv in Hin; discriminate Hin |]);
        exact Hin ].
Qed.

Lemma wildcard_resources_read_only_demo :
  Forall (fun st =>
            In "*" (iam.resources st) ->
            forallb read_only_action (iam.actions st) = true)
         (buildControllerPolicy demoAws "demo"
            "arn:aws:sqs:us-west-2:123:Karpenter-demo"
            "arn:aws:iam::123:role/KarpenterNodeInstanceRole-demo").
Proof.
  apply (wildcard_resources_read_only demoAws "demo"); discriminate.
Defined.

(** The ARNs are not checked: a wildcard passed as the queue ARN gives a
    statement that allows deleting messages on every resource. *)
Lemma wildcard_queue_arn_passed_on (Aws : cdk.Aws) (c r : string) :
  exists st,
    find_sid "AllowInterruptionQueueActions" (buildControllerPolicy Aws c "*" r) = Some st /\
    In "*" (iam.resources st) /\ In "sqs:DeleteMessage" (iam.actions st).
Proof. eexists. split; [reflexivity |]. split; left; reflexivity. Qed.

(** X10: terminating instances and deleting launch templates is allowed
    only on resources tagged as owned by this cluster and as belonging to a
    node pool. *)
Theorem deletion_scoped_to_cluster :
  forall (Aws : cdk.Aws) (c q r : string),
    Forall (fun st =>
              In "ec2:TerminateInstances" (iam.actions st) \/
              In "ec2:DeleteLaunchTemplate" (iam.actions st) ->
              condition "StringEquals"
                ("aws:ResourceTag/kubernetes.io/cluster/" +:+ c) st
                = Some (iam.One "owned") /\
              condition "StringLike" "aws:ResourceTag/karpenter.sh/nodepool" st
                = Some (iam.One "*"))
           (buildControllerPolicy Aws c q r).
Proof.
  intros Aws c q r. each_statement; cbn [iam.actions]; intros Hin;
    first
      [ exfalso; cbn [In] in Hin;
        destruct Hin as [Hin | Hin];
        repeat (destruct Hin as [Hin | Hin]; [discriminate Hin |]);
        exact Hin
      | unfold condition;
        cbn [iam.conditions Js.lit fold_left fst snd];
        repeat first [ rewrite get_set_eq | rewrite get_set_ne by reflexivity ];
        split; reflexivity ].
Qed.

(** X11: passing a role is allowed by one statement only, on the node role
    ARN alone, and only to the EC2 service. *)
Theorem pass_role_restricted :
  forall (Aws : cdk.Aws) (c q r : string),
    Forall (fun st =>
              In "iam:PassRole" (iam.actions st) ->
              iam.sid st = "AllowPassingInstanceRole" /\
              iam.resources st = [ r ] /\
              condition "StringEquals" "iam:PassedToService" st
                = Some (iam.Many [ "ec2.amazonaws.com"; "ec2.amazonaws.com.cn" ]))
           (buildControllerPolicy Aws c q r).
Proof.
  intros Aws c q r. each_statement; cbn [iam.actions]; intros Hin;
    first
      [ exfalso; cbn [In] in Hin;
        repeat (destruct Hin as [Hin | Hin]; [discriminate Hin |]);
        exact Hin
      | repeat split ].
Qed.

(** X12: the name and the description of the managed policy tell clusters
    apart: two policies with the same name are for the same cluster name. *)
Theorem managedPolicyName_injective :
  forall (Aws : cdk.Aws) (p p' : KarpenterControllerPolicyProps),
    iam.managedPolicyName (KarpenterControllerPolicy Aws p)
    = iam.managedPolicyName (KarpenterControllerPolicy Aws p') ->
    clusterName p = clusterName p'.
Proof.
  intros Aws p p' H. cbn [iam.managedPolicyName KarpenterControllerPolicy] in H.
  exact (append_inj_l _ _ _ H).
Qed.

Lemma managedPolicyName_injective_demo :
  clusterName {| clusterName := "demo"; karpenterInterruptionQueueArn := "q";
                 karpenterNodeRoleArn := "r" |}
  = clusterName {| clusterName := "demo"; karpenterInterruptionQueueArn := "q2";
                   karpenterNodeRoleArn := "r2" |}.
Proof.
  apply (managedPolicyName_injective demoAws). reflexivity.
Defined.

(** * Properties of the roles and names of the stack *)

Lemma eqb_append_l (p a b : string) :
  String.eqb (p +:+ a) (p +:+ b) = String.eqb a b.
Proof.
  destruct (String.eqb_spec a b) as [-> | Hne].
  - apply String.eqb_refl.
  - apply String.eqb_neq. intros H. apply Hne. exact (append_inj_l p a b H).
Qed.

(** X13: whatever the issuer of the identity provider is, the trust policy
    of the controller role keeps both of its computed condition keys, and
    the subject it requires is the one of the service account manifest of
    the graph, which carries the role's ARN as its annotation. *)
Theorem controller_role_trusts_service_account :
  forall (Aws : cdk.Aws) (provider : eks_oidc.OpenIdConnectProvider)
         (cfg : Config) (queueArn nodeRoleArn : string),
  exists conds keys g sa san ns name,
    resources.assumedBy
      (KarpenterControllerRole Aws (eks.clusterName (cluster cfg)) provider
         queueArn nodeRoleArn)
    = resources.FederatedPrincipal (eks_oidc.openIdConnectProviderArn provider)
        conds "sts:AssumeRoleWithWebIdentity" /\
    Js.get "StringEquals" conds = Some keys /\
    List.length keys = 2 /\
    buildDeploymentGraph cfg = Ok g /\
    node_of_kind "ServiceAccount" g = Some sa /\ g !! sa = Some san /\
    namespace_of san = Some ns /\ name_of san = Some name /\
    Js.get (eks_oidc.openIdConnectProviderIssuer provider +:+ ":sub") keys
      = Some (iam.One (service_account_subject ns name)) /\
    Js.get (eks_oidc.openIdConnectProviderIssuer provider +:+ ":aud") keys
      = Some (iam.One "sts.amazonaws.com") /\
    str_at [ "metadata"; "annotations"; "eks.amazonaws.com/role-arn" ] (manifest san)
      = Some (karpenterControllerRoleArn cfg).
Proof.
  intros Aws provider cfg queueArn nodeRoleArn.
  set (issuer := eks_oidc.openIdConnectProviderIssuer provider).
  assert (Hne : String.eqb (issuer +:+ ":sub") (issuer +:+ ":aud") = false)
    by (rewrite eqb_append_l; reflexivity).
  exists (KarpenterControllerRole_conditions provider).
  exists [ (issuer +:+ ":sub", iam.One "system:serviceaccount:karpenter:karpenter");
           (issuer +:+ ":aud", iam.One "sts.amazonaws.com") ].
  eexists. exists 1. eexists. exists "karpenter", "karpenter".
  split; [reflexivity |].
  split.
  { unfold KarpenterControllerRole_conditions. fold issuer.
    cbn [Js.lit fold_left fst snd Js.set Js.get].
    rewrite Hne. reflexivity. }
  split; [reflexivity |].
  split; [apply buildDeploymentGraph_eq |].
  do 4 (split; [reflexivity |]).
  split; [| split; [| reflexivity]].
  - cbn [Js.get]. rewrite String.eqb_refl. reflexivity.
  - cbn [Js.get]. rewrite Hne, String.eqb_refl. reflexivity.
Qed.

(** X14: the names the stack gives its node role, instance profile, queue
    and controller role each determine the cluster name, so two clusters
    share one only if they share their name; the two roles never share a
    name; the instance profile holds the node role and every event rule sends
    to the queue. *)
Theorem stack_names_tell_clusters_apart :
  forall (Aws : cdk.Aws) (provider provider' : eks_oidc.OpenIdConnectProvider)
         (c c' q n q' n' : string),
    (resources.roleName (KarpenterNodeRole c)
       = resources.roleName (KarpenterNodeRole c') -> c = c') /\
    (resources.instanceProfileName (KarpenterNodeInstanceProfile c)
       = resources.instanceProfileName (KarpenterNodeInstanceProfile c') -> c = c') /\
    (resources.queueName (KarpenterQueue c)
       = resources.queueName (KarpenterQueue c') -> c = c') /\
    (resources.roleName (KarpenterControllerRole Aws c provider q n)
       = resources.roleName (KarpenterControllerRole Aws c' provider' q' n') -> c = c') /\
    resources.roleName (KarpenterNodeRole c)
      <> resources.roleName (KarpenterControllerRole Aws c' provider' q' n') /\
    resources.roles (KarpenterNodeInstanceProfile c)
      = [ resources.roleName (KarpenterNodeRole c) ] /\
    Forall (fun rule => resources.targets rule = [ resources.queueName (KarpenterQueue c) ])
           (KarpenterRules c).
Proof.
  intros. repeat split.
  - apply append_inj_l.
  - apply append_inj_l.
  - apply append_inj_l.
  - apply append_inj_l.
  - intros H. cbv in H. discriminate H.
  - repeat apply List.Forall_cons; try apply List.Forall_nil; reflexivity.
Qed.

(** The names the manifests use are the names of the role and the queue. *)
Lemma manifest_names_are_resource_names (cfg : Config) :
  karpenterNodeRole_roleName cfg
    = resources.roleName (KarpenterNodeRole (eks.clusterName (cluster cfg))) /\
  karpenterQueue_queueName cfg
    = resources.queueName (KarpenterQueue (eks.clusterName (cluster cfg))).
Proof. split; reflexivity. Qed.

(** X15: the region of the app is never empty: it is the environment's
    region when that is set and not empty, and [us-west-2] when it is unset
    or empty. *)
Theorem app_env_region :
  forall e : ProcessEnv,
    env_region (app_env e) <> EmptyString /\
    (forall s, CDK_DEFAULT_REGION e = Some s -> s <> EmptyString ->
               env_region (app_env e) = s) /\
    (CDK_DEFAULT_REGION e = None \/ CDK_DEFAULT_REGION e = Some EmptyString ->
     env_region (app_env e) = "us-west-2").
Proof.
  intros [acct reg]. unfold app_env. cbn [env_region CDK_DEFAULT_REGION].
  split; [| split].
  - destruct reg as [[| ch s] |]; cbn; discriminate.
  - intros s -> Hs. destruct s as [| ch s]; [contradiction | reflexivity].
  - intros [-> | ->]; reflexivity.
Qed.

(** * Properties of the main stack *)

(** The constructor succeeds for every environment; this is the arena it
    leaves and these are the handles it returns. *)
Lemma MainStack_eq (env : MainStackEnv) :
  MainStack env [] = Ok ([ 8; 9; 10 ], [
    {| id := "KarpenterNamespace";
       manifest := KarpenterNamespace_manifest; dependsOn := [] |};
    {| id := "KarpenterServiceAccount";
       manifest := KarpenterServiceAccount_manifest (karpenterStack_config env);
       dependsOn := [0] |};
    {| id := "KarpenterController";
       manifest := KarpenterController_manifest; dependsOn := [1] |};
    {| id := "KarpenterInstallerRole";
       manifest := KarpenterInstallerRole_manifest; dependsOn := [] |};
    {| id := "KarpenterInstallerRoleBinding";
       manifest := KarpenterInstallerRoleBinding_manifest; dependsOn := [] |};
    {| id := "KarpenterInstallJob";
       manifest := KarpenterInstallJob_manifest (karpenterStack_config env);
       dependsOn := [2] |};
    {| id := "DefaultNodePool";
       manifest := DefaultNodePool_manifest; dependsOn := [5] |};
    {| id := "DefaultNodeClass";
       manifest := DefaultNodeClass_manifest (karpenterStack_config env);
       dependsOn := [5] |};
    {| id := "ExampleWorkload";
       manifest := ExampleWorkload_manifest; dependsOn := [] |};
    {| id := "GitHubRunnersNodePool";
       manifest := GitHubRunnersNodePool_manifest; dependsOn := [] |};
    {| id := "GitHubRunnersNodeClass";
       manifest := GitHubRunnersNodeClass_manifest env; dependsOn := [] |} ]).
Proof. reflexivity. Qed.


(** X17: every NodePool on the cluster, the default one and the one for the
    runners, refers to a node class that is a manifest of the cluster, with
    the apiVersion, kind and name the reference gives, in the namespace of
    the pool. *)
Theorem nodeClassRef_resolves :
  forall env : MainStackEnv,
  exists handles g,
    MainStack env [] = Ok (handles, g) /\
    List.length (List.filter (fun n => bool_decide (kind n = Some "NodePool")) g) = 2 /\
    Forall (fun n =>
              kind n = Some "NodePool" ->
              exists ref,
                nodeClassRef (manifest n) = Some ref /\
                resolves g (namespace_of n) ref = true)
           g.
Proof.
  intros env. do 2 eexists.
  split; [apply MainStack_eq |].
  split; [vm_compute; reflexivity |].
  repeat apply List.Forall_cons; try apply List.Forall_nil;
    intros Hk; vm_compute in Hk; try discriminate Hk;
    eexists; (split; [vm_compute; reflexivity |]); vm_compute; reflexivity.
Qed.

(** X18: every node class on the cluster selects its subnets and its
    security groups by a tag that the stacks put on the private subnets and
    on the node security group, and its role is the node role of the
    Karpenter stack. *)
Theorem node_classes_select_tagged_resources :
  forall env : MainStackEnv,
  exists handles g,
    MainStack env [] = Ok (handles, g) /\
    List.length (List.filter (fun n => bool_decide (kind n = Some "EC2NodeClass")) g) = 2 /\
    Forall (fun n =>
              kind n = Some "EC2NodeClass" ->
              let subnet_terms := items_at [ "spec"; "subnetSelectorTerms" ] (manifest n) in
              let group_terms :=
                items_at [ "spec"; "securityGroupSelectorTerms" ] (manifest n) in
              subnet_terms <> [] /\ group_terms <> [] /\
              forallb (fun t => selects t (subnet_tags (karpenterStack_config env)))
                      subnet_terms = true /\
              forallb (fun t => selects t (karpenterNodeSecurityGroup_tags env))
                      group_terms = true /\
              str_at [ "spec"; "role" ] (manifest n)
                = Some (resources.roleName
                          (KarpenterNodeRole (eks.clusterName (EksCluster env)))))
           g.
Proof.
  intros env. do 2 eexists.
  split; [apply MainStack_eq |].
  split; [vm_compute; reflexivity |].
  repeat apply List.Forall_cons; try apply List.Forall_nil;
    intros Hk; vm_compute in Hk; try discriminate Hk;
    cbv zeta; repeat split; try (vm_compute; reflexivity); vm_compute; discriminate.
Qed.

(** * Further properties of the node-group template *)

Lemma append_nil_r (a : string) : a +:+ EmptyString = a.
Proof.
  induction a as [| ch a IH]; [reflexivity |].
  change (String ch (a +:+ EmptyString) = String ch a).
  rewrite IH. reflexivity.
Qed.

Lemma substitute_group (vars : gmap string string) (ps : list Piece) :
  substitute vars ps =
  match fill vars (snd (group_pieces ps)) with
  | Rendered s => Rendered (fst (group_pieces ps) +:+ s)
  | Failed e => Failed e
  end.
Proof.
  induction ps as [| [c | n] ps IH]; cbn [substitute group_pieces].
  - reflexivity.
  - rewrite IH. destruct (group_pieces ps) as [t rest]. cbn [fst snd].
    destruct (fill vars rest); reflexivity.
  - rewrite IH. destruct (group_pieces ps) as [t rest]. cbn [fst snd fill].
    destruct (vars !! n) as [v |]; [| reflexivity].
    destruct (fill vars rest); reflexivity.
Qed.

(** X19: for every variable mapping, rendering the node-group template
    succeeds exactly when both [CRUN_VERSION] and [CLUSTER_NAME] have a
    value; the output is then four fixed texts with the crun version between
    the first three and the cluster name as the argument of the bootstrap
    command, which ends the script; when a value is missing the error names
    [CRUN_VERSION] first. *)
Theorem renderTemplate_node_group_userdata :
  exists t0 t1 t2 t3 : string,
    (forall vars : gmap string string,
       renderTemplate NodeGroupUserdata vars =
       match vars !! "CRUN_VERSION", vars !! "CLUSTER_NAME" with
       | Some v, Some c =>
           Rendered (t0 +:+ v +:+ t1 +:+ v +:+ t2 +:+ c +:+ t3)
       | None, _ => Failed (MissingVariable "CRUN_VERSION")
       | Some _, None => Failed (MissingVariable "CLUSTER_NAME")
       end) /\
    ends_with (nl +:+ "/etc/eks/bootstrap.sh ") t2 = true /\
    t3 = join_lines [ " \";
                      "    --container-runtime containerd \";
                      "    --kubelet-extra-args '--node-labels=node-type=builder,podman-enabled=true'" ] /\
    Forall (fun t => contains "${" t = false) [ t0; t1; t2; t3 ].
Proof.
  assert (H : exists t0 t1 t2 t3 : string,
             group_pieces (pieces (template_text NodeGroupUserdata))
             = (t0, [ ("CRUN_VERSION", t1); ("CRUN_VERSION", t2); ("CLUSTER_NAME", t3) ]) /\
             ends_with (nl +:+ "/etc/eks/bootstrap.sh ") t2 = true /\
             t3 = join_lines [ " \";
                      "    --container-runtime containerd \";
                      "    --kubelet-extra-args '--node-labels=node-type=builder,podman-enabled=true'" ] /\
             Forall (fun t => contains "${" t = false) [ t0; t1; t2; t3 ]).
  { do 4 eexists. split; [vm_compute; reflexivity |].
    split; [vm_compute; reflexivity |]. split; [vm_compute; reflexivity |].
    repeat apply List.Forall_cons; try apply List.Forall_nil; vm_compute; reflexivity. }
  destruct H as (t0 & t1 & t2 & t3 & Hg & H2 & H3 & Hc).
  exists t0, t1, t2, t3. split; [| split; [exact H2 | split; [exact H3 | exact Hc]]].
  intros vars. unfold renderTemplate, render.
  rewrite substitute_group, Hg. cbn [fst snd fill].
  destruct (vars !! "CRUN_VERSION") as [v |]; [| reflexivity].
  destruct (vars !! "CLUSTER_NAME") as [c |]; [| reflexivity].
  rewrite append_nil_r. reflexivity.
Qed.

(** * The node class and the controller policy *)


